(** * Order ledger of the Preloomi marketplace backend

    Shallow embedding of [src/routes/transaction.py] (create_order,
    confirm_payment, ship_order, confirm_delivery, complete_order,
    cancel_order) and of the item paths of [src/routes/item.py]
    (update_item, delete_item), over the tables declared in
    [src/models/transaction.py] and [src/models/item.py]; with the row
    selection of the order and transaction queries (get_order,
    get_user_orders, get_user_transactions), the money fields of
    [Order.to_dict] and the [token_required] decorator of
    [src/routes/user.py].

    Modelling choices:
    - Python [Decimal] values are finite decimals [coef * 10^dexp];
      addition and multiplication are exact and then rounded by the
      default context (28 digits, half even).
    - A database session is explicit state passing.  Every handler body
      runs in [try: ... except Exception: db.session.rollback()], so an
      error path returns the state it received; a success path returns
      the state after [db.session.commit()].  Constraint checks that the
      database performs at flush or commit (primary keys, NOT NULL, the
      unique tracking number of [Shipment], values a column cannot bind)
      are written out where the code flushes or commits.
    - A row holds what its columns make of the values the code writes:
      the [Numeric(10, 2)] rounding and the text a [String] column keeps
      for a number or a boolean belong to the backend configured by
      [DATABASE_URL], a parameter [platform] of the development.
    - Tables keyed by their primary key are stdpp [gmap]s; the
      [transactions] and [shipments] tables are lists in insertion order,
      which is the order [order.transactions] and [.first()] see.
    - [datetime.utcnow()] is the parameter [now]; fresh uuid4 identifiers
      are parameters too. *)

From Stdlib Require Import ZArith Lia.
From stdpp Require Import base gmap strings list.

Local Open Scope Z_scope.

(** ** Decimal arithmetic *)

Record dec := Dec { coef : Z; dexp : Z }.

#[global] Instance dec_eq_dec : EqDecision dec.
Proof. solve_decision. Defined.

(** Coefficient of [d] written at exponent [m] (for [m <= dexp d]). *)
Definition dec_align (d : dec) (m : Z) : Z := coef d * 10 ^ (dexp d - m).

(** Number of decimal digits of [|n|] ([0] for [0]). *)
Fixpoint digits_aux (fuel : nat) (n : Z) : Z :=
  match fuel with
  | O => 0
  | S f => if n =? 0 then 0 else 1 + digits_aux f (n / 10)
  end.

Definition num_digits (n : Z) : Z :=
  digits_aux (Z.to_nat (Z.log2 (Z.abs n) + 1)) (Z.abs n).

(** Precision of Python's default decimal context. *)
Definition dec_prec : Z := 28.

(** [n / r] rounded half to even, for [0 <= n] and [0 < r]. *)
Definition div_half_even (n r : Z) : Z :=
  let q := n / r in
  let m := n mod r in
  if r <? 2 * m then q + 1
  else if 2 * m =? r then (if Z.odd q then q + 1 else q)
  else q.

(** The default context ([prec=28], [ROUND_HALF_EVEN]) applied to the exact
    result of an operation: a coefficient longer than 28 digits is rounded,
    a carry to [10^28] moves to the exponent. *)
Definition dec_context (d : dec) : dec :=
  let k := num_digits (coef d) - dec_prec in
  if k <=? 0 then d
  else
    let q := div_half_even (Z.abs (coef d)) (10 ^ k) in
    if q =? 10 ^ dec_prec
    then Dec (Z.sgn (coef d) * 10 ^ (dec_prec - 1)) (dexp d + k + 1)
    else Dec (Z.sgn (coef d) * q) (dexp d + k).

(** [Decimal.__add__]: the exact sum (its exponent is the smaller one),
    rounded by the context. *)
Definition dec_add (a b : dec) : dec :=
  let m := Z.min (dexp a) (dexp b) in
  dec_context (Dec (dec_align a m + dec_align b m) m).

(** [Decimal.__mul__]: the exact product (exponents add), rounded by the
    context. *)
Definition dec_mul (a b : dec) : dec :=
  dec_context (Dec (coef a * coef b) (dexp a + dexp b)).

(** [Decimal.__eq__] and [Decimal.__lt__] compare numeric values. *)
Definition dec_eqb (a b : dec) : bool :=
  let m := Z.min (dexp a) (dexp b) in dec_align a m =? dec_align b m.



(** [d] has at most [n] digits after the decimal point. *)
Definition dec_places_le (n : Z) (d : dec) : bool :=
  if - n <=? dexp d then true else Z.modulo (coef d) (10 ^ (- n - dexp d)) =? 0.

(** ** JSON request bodies *)

(** A value of the parsed JSON body.  [JNum d] is a JSON number [v] with
    [d = Decimal(str(v))]; [JOther e] is an array or object, [e] telling
    whether it is empty. *)
Inductive jval :=
  | JStr (s : string)
  | JNum (d : dec)
  | JBool (b : bool)
  | JNull
  | JOther (is_empty : bool).

#[global] Instance jval_eq_dec : EqDecision jval.
Proof. solve_decision. Defined.

Definition body := list (string * jval).

(** [data.get(k)] on a Python dict. *)
Fixpoint body_get (data : body) (k : string) : option jval :=
  match data with
  | [] => None
  | (k', v) :: t => if String.eqb k k' then Some v else body_get t k
  end.

(** [data.get(k, d)]. *)
Definition body_get_default (data : body) (k : string) (d : jval) : jval :=
  match body_get data k with Some v => v | None => d end.

Definition str_nonempty (s : string) : bool :=
  match s with EmptyString => false | String _ _ => true end.

(** Python truthiness of [data.get(k)]. *)
Definition truthy (v : option jval) : bool :=
  match v with
  | None => false
  | Some (JStr s) => str_nonempty s
  | Some (JNum d) => negb (coef d =? 0)
  | Some (JBool b) => b
  | Some JNull => false
  | Some (JOther e) => negb e
  end.

(** [v == lit] for a string literal [lit]. *)
Definition jval_is (v : jval) (lit : string) : bool :=
  match v with JStr s => String.eqb s lit | _ => false end.

Definition opt_str_is (v : option string) (lit : string) : bool :=
  match v with Some s => String.eqb s lit | None => false end.

(** ** Tables *)

(** [Item] (items table), keyed by [id] in the store. *)
Record Item := mkItem {
  item_seller_id : string;
  price : dec;
  item_currency : string;
  item_status : option string;
  item_updated_at : Z;
  (** title, description, category, subcategory, condition, brand,
      size, color, material *)
  item_attrs : list (string * jval) }.

(** [Order] (orders table), keyed by [id] in the store. *)
Record Order := mkOrder {
  buyer_id : string;
  seller_id : string;
  order_item_id : string;
  shipping_address_id : string;
  item_price : dec;
  shipping_cost : dec;
  buyer_protection_fee : dec;
  total_price : dec;
  order_currency : string;
  order_status : string;
  payment_status : string;
  order_created_at : Z;
  order_updated_at : Z;
  shipped_at : option Z;
  delivered_at : option Z;
  completed_at : option Z }.

Record Transaction := mkTransaction {
  txn_id : string;
  txn_order_id : string;
  payment_gateway_id : jval;
  amount : dec;
  txn_currency : string;
  transaction_type : string;
  txn_status : string;
  payment_method : jval }.

Record Shipment := mkShipment {
  shp_id : string;
  shp_order_id : string;
  carrier : jval;
  tracking_number : jval;
  shp_shipping_cost : dec;
  shp_currency : string;
  shp_status : string;
  label_url : jval;
  actual_delivery : option Z;
  shp_updated_at : Z }.

Record state := mkState {
  items : gmap string Item;
  (** addresses table: address id to owning user id *)
  addresses : gmap string string;
  orders : gmap string Order;
  transactions : list Transaction;
  shipments : list Shipment }.

(** HTTP outcome of a handler.  [Crash] is the [except Exception] path:
    rollback and status 500 with [str(e)]; [get_or_404] and
    [first_or_404] raise inside the [try], so a missing row ends there. *)
Inductive response :=
  | Success (code : Z)
  | Failure (code : Z) (msg : string)
  | Crash.

Definition is_success (r : response) : bool :=
  match r with Success _ => true | _ => false end.

(** ** Row helpers *)

(** Assignments to the status and timestamp attributes of an order; the
    handlers never assign any other attribute of an existing order. *)
Definition order_set (o : Order) (os ps : string) (upd : Z)
    (sh dl cp : option Z) : Order :=
  mkOrder (buyer_id o) (seller_id o) (order_item_id o) (shipping_address_id o)
    (item_price o) (shipping_cost o) (buyer_protection_fee o) (total_price o)
    (order_currency o) os ps (order_created_at o) upd sh dl cp.

(** [item.status = st; item.updated_at = now]. *)
Definition item_set_status (it : Item) (st : option string) (now : Z) : Item :=
  mkItem (item_seller_id it) (price it) (item_currency it) st now (item_attrs it).

(** A JSON value used as a primary key ([String(36)] ids). *)
Definition key_of (v : option jval) : option string :=
  match v with Some (JStr k) => Some k | _ => None end.

(** [Order.query.filter_by(id=oid, buyer_id=uid).first_or_404()]. *)
Definition order_of_buyer (s : state) (oid uid : string) : option Order :=
  match orders s !! oid with
  | Some o => if String.eqb (buyer_id o) uid then Some o else None
  | None => None
  end.

(** [Order.query.filter_by(id=oid, seller_id=uid).first_or_404()]. *)
Definition order_of_seller (s : state) (oid uid : string) : option Order :=
  match orders s !! oid with
  | Some o => if String.eqb (seller_id o) uid then Some o else None
  | None => None
  end.

(** The query of [cancel_order]: buyer or seller of the order. *)
Definition order_of_party (s : state) (oid uid : string) : option Order :=
  match orders s !! oid with
  | Some o =>
      if String.eqb (buyer_id o) uid || String.eqb (seller_id o) uid
      then Some o else None
  | None => None
  end.

(** [Address.query.filter_by(id=..., user_id=uid).first_or_404()]. *)
Definition find_address (s : state) (v : option jval) (uid : string)
    : option string :=
  match key_of v with
  | Some a =>
      match addresses s !! a with
      | Some u => if String.eqb u uid then Some a else None
      | None => None
      end
  | None => None
  end.

Definition txn_id_used (s : state) (tid : string) : bool :=
  existsb (fun t => String.eqb (txn_id t) tid) (transactions s).

Definition shipment_id_used (s : state) (shid : string) : bool :=
  existsb (fun sh => String.eqb (shp_id sh) shid) (shipments s).

(** [tracking_number = db.Column(db.String(255), unique=True)]: a non-NULL
    value already present violates the constraint. *)
Definition tracking_clash (s : state) (v : jval) : bool :=
  match v with
  | JNull => false
  | _ => existsb (fun sh => bool_decide (tracking_number sh = v)) (shipments s)
  end.

(** [order.transactions[0]] (None when the list is empty). *)
Definition first_txn (s : state) (oid : string) : option Transaction :=
  List.find (fun t => String.eqb (txn_order_id t) oid) (transactions s).

(** [shipment.status = 'delivered'; shipment.actual_delivery = now]. *)
Definition shipment_delivered (sh : Shipment) (now : Z) : Shipment :=
  mkShipment (shp_id sh) (shp_order_id sh) (carrier sh) (tracking_number sh)
    (shp_shipping_cost sh) (shp_currency sh) "delivered" (label_url sh)
    (Some now) now.

(** [Shipment.query.filter_by(order_id=oid).first()], updated in place. *)
Fixpoint deliver_first (oid : string) (now : Z) (l : list Shipment)
    : list Shipment :=
  match l with
  | [] => []
  | sh :: t =>
      if String.eqb (shp_order_id sh) oid then shipment_delivered sh now :: t
      else sh :: deliver_first oid now t
  end.

Definition allowed_fields : list string :=
  ["title"; "description"; "price"; "category"; "subcategory";
   "condition"; "brand"; "size"; "color"; "material"; "status"].

(** ** The platform

    What the code leaves to Python's [decimal] module and to the database
    configured by [DATABASE_URL]; every theorem holds for any platform,
    unless it states an assumption on one.
    - [decimal_of_string t]: [Decimal(t)], for the strings it accepts with
      a finite value ([None]: [InvalidOperation]);
    - [numeric_10_2 d]: the value a [Numeric(10, 2)] column holds after
      [d] is written to it (a value rounded to 2 decimals);
    - [numeric_of_string], [numeric_of_bool]: what a [Numeric] column makes
      of a string or a boolean bound to it ([None]: the commit raises);
    - [text_of_number], [text_of_bool]: the text a [String] column holds
      after a number or a boolean is bound to it. *)
Record platform := mkPlatform {
  decimal_of_string : string -> option dec;
  numeric_10_2 : dec -> dec;
  numeric_of_string : string -> option dec;
  numeric_of_bool : bool -> option dec;
  text_of_number : dec -> string;
  text_of_bool : bool -> string }.

Section Ledger.

Variable pf : platform.

(** A JSON value written to a nullable [String] column, as the column
    holds it; [None] for a list or a dict, which no column binds (the
    commit raises). *)
Definition str_column (v : jval) : option jval :=
  match v with
  | JStr _ | JNull => Some v
  | JNum d => Some (JStr (text_of_number pf d))
  | JBool b => Some (JStr (text_of_bool pf b))
  | JOther _ => None
  end.

(** [Decimal(str(data.get('shipping_cost', 15.00)))]; [None] is the
    [InvalidOperation] raised on a value [Decimal] does not accept
    ([str(None)], [str(True)], lists, ...). *)
Definition shipping_cost_of (data : body) : option dec :=
  match body_get data "shipping_cost" with
  | None => Some (Dec 150 (-1))
  | Some (JNum d) => Some d
  | Some (JStr t) => decimal_of_string pf t
  | Some _ => None
  end.

(** Buyer protection fee: [item_price * Decimal('0.05') + Decimal('2.50')]. *)
Definition protection_fee (ip : dec) : dec :=
  dec_add (dec_mul ip (Dec 5 (-2))) (Dec 250 (-2)).

(** ** [create_order] (POST /orders) *)

(** The four amounts are computed from the [Decimal] values and each is
    written to its [Numeric(10, 2)] column. *)
Definition create_order (uid new_id : string) (now : Z) (req : option body)
    (s : state) : state * response :=
  match req with
  | None => (s, Crash)
  | Some data =>
    if negb (truthy (body_get data "item_id")) then
      (s, Failure 400 "item_id is required")
    else if negb (truthy (body_get data "shipping_address_id")) then
      (s, Failure 400 "shipping_address_id is required")
    else
    match key_of (body_get data "item_id") with
    | None => (s, Crash)
    | Some iid =>
    match items s !! iid with
    | None => (s, Crash)
    | Some item =>
      if negb (opt_str_is (item_status item) "available") then
        (s, Failure 400 "Item is not available")
      else if String.eqb (item_seller_id item) uid then
        (s, Failure 400 "Cannot buy your own item")
      else
      match find_address s (body_get data "shipping_address_id") uid with
      | None => (s, Crash)
      | Some aid =>
      match shipping_cost_of data with
      | None => (s, Crash)
      | Some sc =>
        let ip := price item in
        let fee := protection_fee ip in
        let total := dec_add (dec_add ip sc) fee in
        let o := mkOrder uid (item_seller_id item) iid aid
                   (numeric_10_2 pf ip) (numeric_10_2 pf sc)
                   (numeric_10_2 pf fee) (numeric_10_2 pf total)
                   (item_currency item) "pending" "pending" now now
                   None None None in
        match orders s !! new_id with
        | Some _ => (s, Crash)
        | None =>
          (mkState (<[iid := item_set_status item (Some "reserved") now]> (items s))
             (addresses s) (<[new_id := o]> (orders s))
             (transactions s) (shipments s), Success 201)
        end
      end
      end
    end
    end
  end.

(** ** [confirm_payment] (POST /orders/<order_id>/confirm-payment) *)

(** [amount=order.total_price] copies a value read from a [Numeric(10, 2)]
    column, which the [Numeric(10, 2)] column [amount] keeps as it is; the
    test [payment_method == 'cod'] is on the JSON value, the row holds what
    the [String] columns make of it. *)
Definition confirm_payment (uid oid tid : string) (now : Z) (req : option body)
    (s : state) : state * response :=
  match order_of_buyer s oid uid with
  | None => (s, Crash)
  | Some o =>
    if negb (String.eqb (payment_status o) "pending") then
      (s, Failure 400 "Payment already processed")
    else
    match req with
    | None => (s, Crash)
    | Some data =>
      let pm := body_get_default data "payment_method" (JStr "cod") in
      let cod := jval_is pm "cod" in
      let o' := if cod
                then order_set o "confirmed" "paid" now
                       (shipped_at o) (delivered_at o) (completed_at o)
                else order_set o "pending" "pending" now
                       (shipped_at o) (delivered_at o) (completed_at o) in
      match str_column (body_get_default data "payment_gateway_id" JNull),
            str_column pm with
      | Some gw, Some pm' =>
        let t := mkTransaction tid oid gw (total_price o) (order_currency o)
                   "payment" (if cod then "success" else "pending") pm' in
        if txn_id_used s tid then (s, Crash)
        else (mkState (items s) (addresses s) (<[oid := o']> (orders s))
                (transactions s ++ [t]) (shipments s), Success 200)
      | _, _ => (s, Crash)
      end
    end
  end.

(** Status check of [ship_order]:
    [order.order_status not in ['confirmed', 'paid']]. *)
Definition ship_status_ok (o : Order) : bool :=
  String.eqb (order_status o) "confirmed" || String.eqb (order_status o) "paid".

(** ** [ship_order] (POST /orders/<order_id>/ship) *)

(** The shipment row holds what its [String] columns make of [carrier],
    [tracking_number] and [label_url]; the unique constraint compares the
    held tracking numbers. *)
Definition ship_order (uid oid shid : string) (now : Z) (req : option body)
    (s : state) : state * response :=
  match order_of_seller s oid uid with
  | None => (s, Crash)
  | Some o =>
    if negb (ship_status_ok o) then
      (s, Failure 400 "Order cannot be shipped in current status")
    else
    match req with
    | None => (s, Crash)
    | Some data =>
      let o' := order_set o "shipped" (payment_status o) now
                  (Some now) (delivered_at o) (completed_at o) in
      match items s !! order_item_id o with
      | None => (s, Crash)
      | Some it =>
        match str_column (body_get_default data "carrier" (JStr "Aramex")),
              str_column (body_get_default data "tracking_number" JNull),
              str_column (body_get_default data "label_url" JNull) with
        | Some c, Some trk, Some lb =>
          let sh := mkShipment shid oid c trk (shipping_cost o) (order_currency o)
                      "picked_up" lb None now in
          if shipment_id_used s shid || tracking_clash s trk
          then (s, Crash)
          else (mkState (<[order_item_id o := item_set_status it (Some "sold") now]> (items s))
                  (addresses s) (<[oid := o']> (orders s))
                  (transactions s) (shipments s ++ [sh]), Success 200)
        | _, _, _ => (s, Crash)
        end
      end
    end
  end.

(** ** [confirm_delivery] (POST /orders/<order_id>/confirm-delivery) *)
Definition confirm_delivery (uid oid : string) (now : Z) (s : state)
    : state * response :=
  match order_of_buyer s oid uid with
  | None => (s, Crash)
  | Some o =>
    if negb (String.eqb (order_status o) "shipped") then
      (s, Failure 400 "Order is not in shipped status")
    else
      let o' := order_set o "delivered" (payment_status o) now
                  (shipped_at o) (Some now) (completed_at o) in
      (mkState (items s) (addresses s) (<[oid := o']> (orders s))
         (transactions s) (deliver_first oid now (shipments s)), Success 200)
  end.

(** ** [complete_order] (POST /orders/<order_id>/complete) *)

(** [amount=order.item_price + order.shipping_cost]: a [Decimal] sum written
    to the [Numeric(10, 2)] column. *)
Definition complete_order (uid oid tid : string) (now : Z) (s : state)
    : state * response :=
  match order_of_buyer s oid uid with
  | None => (s, Crash)
  | Some o =>
    if negb (String.eqb (order_status o) "delivered") then
      (s, Failure 400 "Order must be delivered before completion")
    else
      let payout := numeric_10_2 pf (dec_add (item_price o) (shipping_cost o)) in
      let t := mkTransaction tid oid JNull payout (order_currency o)
                 "payout" "success" (JStr "wallet") in
      let o' := order_set o "completed" (payment_status o) now
                  (shipped_at o) (delivered_at o) (Some now) in
      if txn_id_used s tid then (s, Crash)
      else (mkState (items s) (addresses s) (<[oid := o']> (orders s))
              (transactions s ++ [t]) (shipments s), Success 200)
  end.

(** ** [cancel_order] (POST /orders/<order_id>/cancel) *)

(** The refund copies [order.total_price] and the [payment_method] held by
    the first transaction, both values read from their columns. *)
Definition cancel_order (uid oid tid : string) (now : Z) (req : option body)
    (s : state) : state * response :=
  match order_of_party s oid uid with
  | None => (s, Crash)
  | Some o =>
    if negb (String.eqb (order_status o) "pending"
             || String.eqb (order_status o) "confirmed") then
      (s, Failure 400 "Order cannot be cancelled in current status")
    else
    match req with
    | None => (s, Crash)
    | Some _ =>
      match items s !! order_item_id o with
      | None => (s, Crash)
      | Some it =>
        let items' := <[order_item_id o := item_set_status it (Some "available") now]>
                        (items s) in
        if String.eqb (payment_status o) "paid" then
          let pm := match first_txn s oid with
                    | Some t0 => payment_method t0
                    | None => JStr "cod"
                    end in
          let t := mkTransaction tid oid JNull (total_price o) (order_currency o)
                     "refund" "success" pm in
          let o' := order_set o "cancelled" "refunded" now
                      (shipped_at o) (delivered_at o) (completed_at o) in
          if txn_id_used s tid then (s, Crash)
          else (mkState items' (addresses s) (<[oid := o']> (orders s))
                  (transactions s ++ [t]) (shipments s), Success 200)
        else
          let o' := order_set o "cancelled" (payment_status o) now
                      (shipped_at o) (delivered_at o) (completed_at o) in
          (mkState items' (addresses s) (<[oid := o']> (orders s))
             (transactions s) (shipments s), Success 200)
      end
    end
  end.

(** ** [update_item] and [delete_item] ([src/routes/item.py]) *)

(** Columns of [Item] declared [nullable=False] among the allowed fields
    other than [price]. *)
Definition not_null_field (field : string) : bool :=
  String.eqb field "title" || String.eqb field "category"
  || String.eqb field "condition".

(** [setattr(item, field, v)] together with what the column makes of [v]
    at commit: [None] when the commit raises.  [price] is the
    [Numeric(10, 2)] column (NOT NULL); [status] and the attributes are
    [String] or [Text] columns. *)
Definition item_setattr (it : Item) (field : string) (v : jval) : option Item :=
  if String.eqb field "price" then
    match (match v with
           | JNum d => Some d
           | JStr t => numeric_of_string pf t
           | JBool b => numeric_of_bool pf b
           | _ => None
           end) with
    | Some d => Some (mkItem (item_seller_id it) (numeric_10_2 pf d) (item_currency it)
                        (item_status it) (item_updated_at it) (item_attrs it))
    | None => None
    end
  else if String.eqb field "status" then
    match str_column v with
    | Some (JStr st) => Some (item_set_status it (Some st) (item_updated_at it))
    | Some _ => Some (item_set_status it None (item_updated_at it))
    | None => None
    end
  else
    match str_column v with
    | None => None
    | Some v' =>
      if not_null_field field && bool_decide (v' = JNull) then None
      else Some (mkItem (item_seller_id it) (price it) (item_currency it)
                   (item_status it) (item_updated_at it)
                   ((field, v') :: filter (fun p => negb (String.eqb p.1 field))
                                    (item_attrs it)))
    end.

(** [for field in allowed_fields: if field in data: setattr(...)]. *)
Fixpoint apply_fields (data : body) (fs : list string) (it : Item) : option Item :=
  match fs with
  | [] => Some it
  | f :: fs' =>
    match body_get data f with
    | None => apply_fields data fs' it
    | Some v =>
      match item_setattr it f v with
      | None => None
      | Some it' => apply_fields data fs' it'
      end
    end
  end.

(** [Item.query.filter_by(id=iid, seller_id=uid).first_or_404()]. *)
Definition item_of_seller (s : state) (iid uid : string) : option Item :=
  match items s !! iid with
  | Some it => if String.eqb (item_seller_id it) uid then Some it else None
  | None => None
  end.

(** PUT /items/<item_id> *)
Definition update_item (uid iid : string) (now : Z) (req : option body)
    (s : state) : state * response :=
  match item_of_seller s iid uid with
  | None => (s, Crash)
  | Some it =>
    match req with
    | None => (s, Crash)
    | Some data =>
      match apply_fields data allowed_fields it with
      | None => (s, Crash)
      | Some it' =>
        (mkState (<[iid := mkItem (item_seller_id it') (price it') (item_currency it')
                             (item_status it') now (item_attrs it')]> (items s))
           (addresses s) (orders s) (transactions s) (shipments s), Success 200)
      end
    end
  end.

(** DELETE /items/<item_id>: soft delete by status. *)
Definition delete_item (uid iid : string) (now : Z) (s : state)
    : state * response :=
  match item_of_seller s iid uid with
  | None => (s, Crash)
  | Some it =>
    (mkState (<[iid := item_set_status it (Some "deleted") now]> (items s))
       (addresses s) (orders s) (transactions s) (shipments s), Success 200)
  end.

(** ** Reachable states *)

(** One request handled by one of the modelled handlers. *)
Inductive step : state -> state -> Prop :=
  | step_create uid nid now req s :
      step s (create_order uid nid now req s).1
  | step_confirm_payment uid oid tid now req s :
      step s (confirm_payment uid oid tid now req s).1
  | step_ship uid oid shid now req s :
      step s (ship_order uid oid shid now req s).1
  | step_confirm_delivery uid oid now s :
      step s (confirm_delivery uid oid now s).1
  | step_complete uid oid tid now s :
      step s (complete_order uid oid tid now s).1
  | step_cancel uid oid tid now req s :
      step s (cancel_order uid oid tid now req s).1
  | step_update_item uid iid now req s :
      step s (update_item uid iid now req s).1
  | step_delete_item uid iid now s :
      step s (delete_item uid iid now s).1.

(** A fresh database: any items and addresses, no orders, transactions
    or shipments. *)
Definition initial (s : state) : Prop :=
  orders s = ∅ /\ transactions s = [] /\ shipments s = [].

Inductive reachable : state -> Prop :=
  | reach_init s : initial s -> reachable s
  | reach_step s s' : reachable s -> step s s' -> reachable s'.

End Ledger.

(** ** Order and transaction queries ([src/routes/transaction.py]) *)

(** GET /orders/<order_id> runs the query of [order_of_party] with
    [first_or_404].  GET /orders ([get_user_orders]): the rows the query
    selects, before [order_by] and [paginate]; [role] is
    [request.args.get('role', 'all')], and the [status] filter applies
    only when [if status:] holds. *)
Definition user_orders_rows (s : state) (uid : string) (role status : option string)
    : list (string * Order) :=
  let r := match role with Some r => r | None => "all" end in
  List.filter (fun ko =>
      (if String.eqb r "buyer" then String.eqb (buyer_id ko.2) uid
       else if String.eqb r "seller" then String.eqb (seller_id ko.2) uid
       else String.eqb (buyer_id ko.2) uid || String.eqb (seller_id ko.2) uid)
      && match status with
         | Some st => if str_nonempty st then String.eqb (order_status ko.2) st else true
         | None => true
         end)
    (map_to_list (orders s)).

(** GET /transactions ([get_user_transactions]): the transactions joined
    with the orders of which [uid] is buyer or seller (an inner join on
    the primary key, so each transaction at most once), filtered by
    [type] when [if transaction_type:] holds; before [order_by] and
    [paginate]. *)
Definition user_transactions_rows (s : state) (uid : string) (ty : option string)
    : list Transaction :=
  List.filter (fun t =>
      match orders s !! txn_order_id t with
      | Some o => String.eqb (buyer_id o) uid || String.eqb (seller_id o) uid
      | None => false
      end
      && match ty with
         | Some y => if str_nonempty y then String.eqb (transaction_type t) y else true
         | None => true
         end)
    (transactions s).

(** ** Money fields of [Order.to_dict] ([src/models/transaction.py]) *)

Section OrderJson.

(** Python's [float] and the conversion [float(x)] of a [Decimal]. *)
Variable float : Type.
Variable float_of_decimal : dec -> float.

(** [float(x) if x else None]: a [Decimal] is false exactly when it is
    zero. *)
Definition money_json (d : dec) : option float :=
  if negb (coef d =? 0) then Some (float_of_decimal d) else None.

(** The entries [item_price], [shipping_cost], [buyer_protection_fee] and
    [total_price] of [order.to_dict()]; [None] is JSON null. *)
Definition order_money_json (o : Order) : list (string * option float) :=
  [("item_price", money_json (item_price o));
   ("shipping_cost", money_json (shipping_cost o));
   ("buyer_protection_fee", money_json (buyer_protection_fee o));
   ("total_price", money_json (total_price o))].

End OrderJson.

(** ** [token_required] ([src/routes/user.py]) *)

(** Outcome of [jwt.decode]: the payload, or the two exceptions the
    decorator catches ([ExpiredSignatureError], and [InvalidTokenError]
    with its subclasses). *)
Inductive jwt_result :=
  | JwtPayload (payload : body)
  | JwtExpired
  | JwtInvalid.

(** Outcome of the decorator before the route runs: the current user,
    a 401 answer, or an exception the decorator does not catch. *)
Inductive auth :=
  | AuthUser (uid : string)
  | AuthReject (msg : string)
  | AuthUncaught.

(** [if token.startswith('Bearer '): token = token[7:]]. *)
Definition strip_bearer (t : string) : string :=
  if String.prefix "Bearer " t then String.substring 7 (String.length t - 7) t else t.

Section Auth.

(** [jwt.decode(token, SECRET_KEY, algorithms=['HS256'])]. *)
Variable jwt_decode : string -> jwt_result.
(** [User.query.get(v)]: the id of the user row found, if any. *)
Variable user_get : jval -> option string.

(** The body of [decorated] up to the call of the route; [hdr] is
    [request.headers.get('Authorization')].  A payload without
    [user_id] raises [KeyError] at [data['user_id']], which neither
    [except] clause catches. *)
Definition authenticate (hdr : option string) : auth :=
  match hdr with
  | None => AuthReject "Token is missing"
  | Some h =>
    if negb (str_nonempty h) then AuthReject "Token is missing" else
    match jwt_decode (strip_bearer h) with
    | JwtExpired => AuthReject "Token has expired"
    | JwtInvalid => AuthReject "Invalid token"
    | JwtPayload p =>
      match body_get p "user_id" with
      | None => AuthUncaught
      | Some v =>
        match user_get v with
        | Some u => AuthUser u
        | None => AuthReject "Invalid token"
        end
      end
    end
  end.

(** A route decorated with [@token_required], given as the handler [f]
    of the current user.  The uncaught [KeyError] reaches Flask, which
    answers 500 without committing, written [Crash]. *)
Definition token_required (hdr : option string)
    (f : string -> state -> state * response) (s : state) : state * response :=
  match authenticate hdr with
  | AuthUser u => f u s
  | AuthReject m => (s, Failure 401 m)
  | AuthUncaught => (s, Crash)
  end.

End Auth.

(** ** Concrete scenarios *)

(** Rounding to 2 decimals, half away from zero, as PostgreSQL stores a
    value in a [numeric(10, 2)] column. *)
Definition round_2 (d : dec) : dec :=
  if -2 <=? dexp d then Dec (dec_align d (-2)) (-2)
  else
    let r := 10 ^ (-2 - dexp d) in
    Dec (Z.sgn (coef d) * ((Z.abs (coef d) + r / 2) / r)) (-2).

(** Decimal digits of [n >= 0], in front of [acc]. *)
Fixpoint digits_string (fuel : nat) (n : Z) (acc : string) : string :=
  match fuel with
  | O => acc
  | S f =>
    let acc' := String (Ascii.ascii_of_nat (48 + Z.to_nat (n mod 10))) acc in
    if n <? 10 then acc' else digits_string f (n / 10) acc'
  end.

Definition nat_text (n : Z) : string :=
  digits_string (Z.to_nat (num_digits n + 1)) n EmptyString.

Fixpoint zeros (n : nat) : string :=
  match n with O => EmptyString | S m => String (Ascii.ascii_of_nat 48) (zeros m) end.

(** Plain notation of a decimal, as PostgreSQL prints a numeric. *)
Definition dec_text (d : dec) : string :=
  let sign := if coef d <? 0 then "-" else EmptyString in
  if 0 <=? dexp d then String.append sign (nat_text (Z.abs (coef d) * 10 ^ dexp d))
  else
    let r := 10 ^ (- dexp d) in
    let fr := nat_text (Z.abs (coef d) mod r) in
    String.append sign
      (String.append (nat_text (Z.abs (coef d) / r))
         (String.append "."
            (String.append (zeros (Z.to_nat (- dexp d) - String.length fr)) fr))).

(** The platform of the scenarios: PostgreSQL's rounding and printing, and
    no string taken as a number (only JSON numbers parse). *)
Definition pg : platform :=
  mkPlatform (fun _ => None) round_2 (fun _ => None) (fun _ => None) dec_text
    (fun b => if b then "true" else "false").

(** Seller [s1] lists [i1] at 100.00 and [i2] at 50.00; buyers [b1] and
    [b2] own addresses [a1] and [a2]. *)
Definition shop0 : state :=
  mkState (<["i2" := mkItem "s1" (Dec 5000 (-2)) "AED" (Some "available") 0 []]>
             {["i1" := mkItem "s1" (Dec 10000 (-2)) "AED" (Some "available") 0 []]})
    (<["a2" := "b2"]> {["a1" := "b1"]}) ∅ [] [].

Definition req_order (iid aid : string) : option body :=
  Some [("item_id", JStr iid); ("shipping_address_id", JStr aid)].

Definition req_ship (trk : string) : option body :=
  Some [("tracking_number", JStr trk)].

(** [b1] orders [i1] as [o1]. *)
Definition shop1 : state :=
  (create_order pg "b1" "o1" 1 (req_order "i1" "a1") shop0).1.

(** [b1] pays [o1] cash on delivery (default method). *)
Definition shop2 : state := (confirm_payment pg "b1" "o1" "t1" 2 (Some []) shop1).1.

(** [s1] ships [o1] with tracking number TRK1. *)
Definition shop3 : state := (ship_order pg "s1" "o1" "sh1" 3 (req_ship "TRK1") shop2).1.

(** [b2] orders [i2] as [o2] and pays cash on delivery. *)
Definition shop4 : state :=
  (create_order pg "b2" "o2" 4 (req_order "i2" "a2") shop3).1.
Definition shop5 : state := (confirm_payment pg "b2" "o2" "t2" 5 (Some []) shop4).1.

(** [b1] confirms delivery of [o1]. *)
Definition shop6 : state := (confirm_delivery "b1" "o1" 7 shop5).1.

(** [shop3] without its shipments rows: [o1] is shipped but has no
    Shipment. *)
Definition shop3_noship : state :=
  mkState (items shop3) (addresses shop3) (orders shop3) (transactions shop3) [].

(** Seller [s1] lists [i1] at 100.01; buyer [b1] owns [a1]. *)
Definition shop_cents : state :=
  mkState {["i1" := mkItem "s1" (Dec 10001 (-2)) "AED" (Some "available") 0 []]}
    {["a1" := "b1"]} ∅ [] [].





(** [b1] cancels the unpaid [o1] of [shop1]; [i1] is available again. *)
Definition shopc1 : state := (cancel_order "b1" "o1" "t0" 2 (Some []) shop1).1.

(** [b2] orders [i1] as [o3]. *)
Definition shopc2 : state :=
  (create_order pg "b2" "o3" 3 (req_order "i1" "a2") shopc1).1.

(** [b1] pays the cancelled [o1] cash on delivery. *)
Definition shopc3 : state := (confirm_payment pg "b1" "o1" "t1" 4 (Some []) shopc2).1.

(** [b1] completes [o1] of [shop6]: a payout. *)
Definition shop7 : state := (complete_order pg "b1" "o1" "t3" 8 shop6).1.

(** [b2] cancels the paid [o2]: a refund. *)
Definition shop8 : state := (cancel_order "b2" "o2" "t4" 9 (Some []) shop7).1.

(** [s1] ships [o1]. *)
Definition shopc4 : state := (ship_order pg "s1" "o1" "sh1" 5 (req_ship "TRK9") shopc3).1.

(** ** Properties *)

(** The four monetary attributes of an order. *)
Definition money (o : Order) : dec * dec * dec * dec :=
  (item_price o, shipping_cost o, buyer_protection_fee o, total_price o).


(** The stored amounts of an order are what the [Numeric(10, 2)] columns
    make of an item price [ip], a shipping cost [sc], the fee computed from
    [ip] and the total computed from the three. *)
Definition money_ok (pf : platform) (o : Order) : Prop :=
  exists ip sc,
    numeric_10_2 pf ip = item_price o /\
    numeric_10_2 pf sc = shipping_cost o /\
    numeric_10_2 pf (protection_fee ip) = buyer_protection_fee o /\
    numeric_10_2 pf (dec_add (dec_add ip sc) (protection_fee ip)) = total_price o.

(** The [Numeric(10, 2)] column keeps a value written with two decimals
    that fits its ten digits. *)
Definition keeps_cents (pf : platform) : Prop :=
  forall c, Z.abs c < 10 ^ 10 ->
  dec_eqb (numeric_10_2 pf (Dec c (-2))) (Dec c (-2)) = true.

(** The values the handlers ever assign to [order_status]. *)
Definition order_status_known (o : Order) : bool :=
  existsb (String.eqb (order_status o))
    ["pending"; "confirmed"; "shipped"; "delivered"; "completed"; "cancelled"].


(** How one handler changes the orders table: not at all, by rewriting
    one existing order, or by inserting a new one. *)
Definition orders_evolve (pf : platform) (s s' : state) : Prop :=
  orders s' = orders s
  \/ (exists k o o', orders s' = <[k := o']> (orders s) /\
        orders s !! k = Some o /\ money o' = money o /\
        order_status_known o' = true)
  \/ (exists k o', orders s' = <[k := o']> (orders s) /\
        orders s !! k = None /\ money_ok pf o' /\ order_status_known o' = true).

(** How one handler changes the shipments table: not at all, by marking
    the first Shipment of an order delivered, or by appending a Shipment
    whose tracking number is not yet taken. *)
Definition shipments_evolve (s s' : state) : Prop :=
  shipments s' = shipments s
  \/ (exists oid now, shipments s' = deliver_first oid now (shipments s))
  \/ (exists sh, shipments s' = shipments s ++ [sh] /\
        tracking_clash s (tracking_number sh) = false).

(** Non-NULL tracking numbers of a shipments table, in order. *)
Definition tracking_numbers (l : list Shipment) : list jval :=
  filter (fun v => v <> JNull) (map tracking_number l).

(** HTTP status code of a response. *)
Definition response_code (r : response) : Z :=
  match r with Success c => c | Failure c _ => c | Crash => 500 end.

(** The HTTP status of the spec's [ConflictError] (409 Conflict); no
    handler of the code base returns it. *)
Definition conflict_error_code : Z := 409.

(** Payment method of the refund written by [cancel_order]:
    [order.transactions[0].payment_method if order.transactions else 'cod']. *)
Definition refund_method (s : state) (oid : string) : jval :=
  match first_txn s oid with Some t0 => payment_method t0 | None => JStr "cod" end.

(** *** Ledger invariant, status moves and history *)

(** The (order_status, payment_status) pairs the handlers produce:
    [pending] goes with an unpaid order, [confirmed], [shipped],
    [delivered] and [completed] with a paid one, and [cancelled] with an
    unpaid or a refunded one. *)
Definition pair_ok (o : Order) : bool :=
  let os := order_status o in
  let ps := payment_status o in
  if String.eqb os "pending" then String.eqb ps "pending"
  else if String.eqb os "confirmed" || String.eqb os "shipped"
          || String.eqb os "delivered" || String.eqb os "completed"
  then String.eqb ps "paid"
  else if String.eqb os "cancelled" then
    String.eqb ps "pending" || String.eqb ps "refunded"
  else false.

(** Order statuses after [ship_order] has run. *)
Definition shipped_like (o : Order) : bool :=
  String.eqb (order_status o) "shipped" || String.eqb (order_status o) "delivered"
  || String.eqb (order_status o) "completed".

(** A transaction row refers to an existing order; a payout only to a
    completed one, a refund only to a cancelled and refunded one. *)
Definition txn_ok (m : gmap string Order) (t : Transaction) : Prop :=
  exists o, m !! txn_order_id t = Some o /\
    (transaction_type t = "payout" -> order_status o = "completed") /\
    (transaction_type t = "refund" ->
       order_status o = "cancelled" /\ payment_status o = "refunded").

(** A shipment row refers to an existing order that has been shipped. *)
Definition shp_ok (m : gmap string Order) (sh : Shipment) : Prop :=
  exists o, m !! shp_order_id sh = Some o /\ shipped_like o = true.

(** Order ids of the transactions of type [ty], in table order. *)
Definition typed_orders (ty : string) (l : list Transaction) : list string :=
  map txn_order_id (filter (fun t => transaction_type t = ty) l).

(** Consistency of the ledger tables. *)
Definition ledger_inv (s : state) : Prop :=
  (forall k o, orders s !! k = Some o ->
     pair_ok o = true /\ is_Some (items s !! order_item_id o)) /\
  Forall (txn_ok (orders s)) (transactions s) /\
  NoDup (typed_orders "payout" (transactions s)) /\
  NoDup (typed_orders "refund" (transactions s)) /\
  Forall (shp_ok (orders s)) (shipments s) /\
  NoDup (map shp_order_id (shipments s)).

(** Every key of [m] is a key of [m']. *)
Definition keys_kept {A} (m m' : gmap string A) : Prop :=
  forall k, is_Some (m !! k) -> is_Some (m' !! k).

(** (order_status, payment_status) of an order. *)
Definition status_of (o : Order) : string * string :=
  (order_status o, payment_status o).

(** The moves of the status pair an order can make in one request. *)
Definition lifecycle_edge (a b : string * string) : bool :=
  bool_decide ((a, b) ∈
    [(("pending", "pending"), ("confirmed", "paid"));
     (("pending", "pending"), ("cancelled", "pending"));
     (("cancelled", "pending"), ("confirmed", "paid"));
     (("cancelled", "pending"), ("pending", "pending"));
     (("confirmed", "paid"), ("shipped", "paid"));
     (("confirmed", "paid"), ("cancelled", "refunded"));
     (("shipped", "paid"), ("delivered", "paid"));
     (("delivered", "paid"), ("completed", "paid"))]).

(** Every order of [s] is still in [s'], its status pair unchanged or
    moved along one [lifecycle_edge]. *)
Definition moves_ok (s s' : state) : Prop :=
  forall k o, orders s !! k = Some o ->
  exists o', orders s' !! k = Some o' /\
    (status_of o' = status_of o \/ lifecycle_edge (status_of o) (status_of o') = true).

(** Rows are never removed: the transactions table only grows at its end,
    the shipments table keeps its rows (ids in order), and no item or
    order key disappears. *)
Definition history_kept (s s' : state) : Prop :=
  (exists l, transactions s' = transactions s ++ l) /\
  (exists l, map shp_id (shipments s') = map shp_id (shipments s) ++ l) /\
  keys_kept (items s) (items s') /\ keys_kept (orders s) (orders s').

(** *** Lemmas on decimals *)

Lemma pow10_pos (n : Z) : 0 <= n -> 0 < 10 ^ n.
Proof. intros; apply Z.pow_pos_nonneg; lia. Qed.

Ltac split_handler :=
  repeat (case_match; simplify_eq/=).

Ltac evolve_leaf :=
  first [ left; reflexivity
        | right; left; eexists _, _, _;
          split_and!; [reflexivity|eassumption|reflexivity|reflexivity]
        | right; right; eexists _, _;
          split_and!; [reflexivity|eassumption|
                       do 2 eexists; split_and!; reflexivity|reflexivity] ].

Lemma confirm_payment_evolve pf uid oid tid now req s :
  orders_evolve pf s (confirm_payment pf uid oid tid now req s).1.
Proof. unfold confirm_payment, order_of_buyer; split_handler; evolve_leaf. Qed.
Lemma ship_order_evolve pf uid oid shid now req s :
  orders_evolve pf s (ship_order pf uid oid shid now req s).1.
Proof. unfold ship_order, order_of_seller; split_handler; evolve_leaf. Qed.
Lemma confirm_delivery_evolve pf uid oid now s :
  orders_evolve pf s (confirm_delivery uid oid now s).1.
Proof. unfold confirm_delivery, order_of_buyer; split_handler; evolve_leaf. Qed.
Lemma complete_order_evolve pf uid oid tid now s :
  orders_evolve pf s (complete_order pf uid oid tid now s).1.
Proof. unfold complete_order, order_of_buyer; split_handler; evolve_leaf. Qed.
Lemma cancel_order_evolve pf uid oid tid now req s :
  orders_evolve pf s (cancel_order uid oid tid now req s).1.
Proof. unfold cancel_order, order_of_party; split_handler; evolve_leaf. Qed.
Lemma update_item_evolve pf uid iid now req s :
  orders_evolve pf s (update_item pf uid iid now req s).1.
Proof. unfold update_item; repeat case_match; left; reflexivity. Qed.
Lemma delete_item_evolve pf uid iid now s :
  orders_evolve pf s (delete_item uid iid now s).1.
Proof. unfold delete_item; split_handler; evolve_leaf. Qed.
Lemma create_order_evolve pf uid nid now req s :
  orders_evolve pf s (create_order pf uid nid now req s).1.
Proof. unfold create_order; split_handler; evolve_leaf. Qed.

Lemma step_evolve pf s s' : step pf s s' -> orders_evolve pf s s'.
Proof.
  destruct 1.
  - apply create_order_evolve.
  - apply confirm_payment_evolve.
  - apply ship_order_evolve.
  - apply confirm_delivery_evolve.
  - apply complete_order_evolve.
  - apply cancel_order_evolve.
  - apply update_item_evolve.
  - apply delete_item_evolve.
Qed.


(** An order property fixed by the monetary values and the known
    statuses, and holding of new orders, is kept by every handler. *)
Lemma evolve_preserves pf (P : Order -> Prop) s s' :
  (forall o o', money o' = money o -> order_status_known o' = true -> P o -> P o') ->
  (forall o', money_ok pf o' -> order_status_known o' = true -> P o') ->
  orders_evolve pf s s' ->
  (forall k o, orders s !! k = Some o -> P o) ->
  forall k o, orders s' !! k = Some o -> P o.
Proof.
  intros Hupd Hnew [Heq | [(k & o & o' & Heq & Hk & Hm & Hs) | (k & o' & Heq & Hk & Ht & Hs)]]
    Hall k' p Hp; rewrite Heq in Hp.
  - eauto.
  - destruct (decide (k' = k)) as [-> | Hne].
    + rewrite lookup_insert_eq in Hp; injection Hp as <-. eauto.
    + rewrite lookup_insert_ne in Hp by congruence. eauto.
  - destruct (decide (k' = k)) as [-> | Hne].
    + rewrite lookup_insert_eq in Hp; injection Hp as <-. eauto.
    + rewrite lookup_insert_ne in Hp by congruence. eauto.
Qed.

Lemma reachable_orders (P : Order -> Prop) pf s :
  (forall o o', money o' = money o -> order_status_known o' = true -> P o -> P o') ->
  (forall o', money_ok pf o' -> order_status_known o' = true -> P o') ->
  reachable pf s -> forall k o, orders s !! k = Some o -> P o.
Proof.
  intros Hupd Hnew; induction 1 as [s [Hinit _] | s s' _ IH Hstep].
  - intros k o; rewrite Hinit, lookup_empty; discriminate.
  - eapply evolve_preserves; eauto using step_evolve.
Qed.


Lemma reachable_status_known pf s :
  reachable pf s -> forall k o, orders s !! k = Some o -> order_status_known o = true.
Proof. apply reachable_orders; tauto. Qed.

(** *** The scenario states are reachable *)

Lemma shop1_reachable : reachable pg shop1.
Proof.
  apply (reach_step _ shop0); [apply reach_init; split_and!; reflexivity |].
  unfold shop1; apply step_create.
Qed.

Lemma shop3_reachable : reachable pg shop3.
Proof.
  apply (reach_step _ shop2); [apply (reach_step _ shop1); [apply shop1_reachable|] |].
  - unfold shop2; apply step_confirm_payment.
  - unfold shop3; apply step_ship.
Qed.

Lemma shop5_reachable : reachable pg shop5.
Proof.
  apply (reach_step _ shop4); [apply (reach_step _ shop3); [apply shop3_reachable|] |].
  - unfold shop4; apply step_create.
  - unfold shop5; apply step_confirm_payment.
Qed.

Lemma shop6_reachable : reachable pg shop6.
Proof.
  apply (reach_step _ shop5); [apply shop5_reachable|].
  unfold shop6; apply step_confirm_delivery.
Qed.

(** *** C1 *)





Ltac str_facts :=
  repeat match goal with
  | H : (_ =? _)%string = true |- _ => apply String.eqb_eq in H
  | H : (_ =? _)%string = false |- _ => apply String.eqb_neq in H
  | H : negb _ = false |- _ => apply negb_false_iff in H
  | H : negb _ = true |- _ => apply negb_true_iff in H
  | H : _ || _ = true |- _ => apply orb_true_iff in H
  | H : (_ =? _)%string = true \/ _ |- _ => rewrite !String.eqb_eq in H
  | H : _ || _ = false |- _ => apply orb_false_iff in H; destruct H
  end.

(** *** C2 *)

(** C2: a successful [cancel_order] found the order in status pending or
    confirmed, sets it to cancelled (monetary fields untouched) and sets its
    item back to available; if the order was paid it appends exactly one
    refund Transaction of [total_price], with the payment method of the
    order's first Transaction (or cod), and sets payment_status to refunded;
    if payment was pending it appends no Transaction. *)
Theorem cancel_order_refund uid oid tid now req s s' :
  cancel_order uid oid tid now req s = (s', Success 200) ->
  exists o it o',
    orders s !! oid = Some o /\
    (order_status o = "pending" \/ order_status o = "confirmed") /\
    items s !! order_item_id o = Some it /\
    items s' !! order_item_id o = Some (item_set_status it (Some "available") now) /\
    orders s' !! oid = Some o' /\ order_status o' = "cancelled" /\ money o' = money o /\
    (payment_status o = "paid" ->
       payment_status o' = "refunded" /\
       transactions s' = transactions s ++
         [mkTransaction tid oid JNull (total_price o) (order_currency o)
            "refund" "success" (refund_method s oid)]) /\
    (payment_status o = "pending" ->
       payment_status o' = "pending" /\ transactions s' = transactions s).
Proof.
  unfold cancel_order, order_of_party; intros H; split_handler; str_facts;
    (eexists _, _, _; split_and!;
     [ reflexivity | assumption | eassumption
     | apply lookup_insert_eq | apply lookup_insert_eq | reflexivity | reflexivity
     | intros Hp; first [congruence | split; [reflexivity|]]
     | intros Hp; first [congruence | split; [simpl; congruence | reflexivity]] ]).
  all: unfold refund_method; match goal with H : first_txn _ _ = _ |- _ => rewrite H end;
    reflexivity.
Qed.

(** [b2] cancels the paid order [o2] of the scenario. *)
Lemma cancel_order_refund_witness :
  exists o it o',
    orders shop5 !! "o2" = Some o /\
    (order_status o = "pending" \/ order_status o = "confirmed") /\
    items shop5 !! order_item_id o = Some it /\
    items (cancel_order "b2" "o2" "t3" 6 (Some []) shop5).1 !! order_item_id o =
      Some (item_set_status it (Some "available") 6) /\
    orders (cancel_order "b2" "o2" "t3" 6 (Some []) shop5).1 !! "o2" = Some o' /\
    order_status o' = "cancelled" /\ money o' = money o /\
    (payment_status o = "paid" ->
       payment_status o' = "refunded" /\
       transactions (cancel_order "b2" "o2" "t3" 6 (Some []) shop5).1 =
         transactions shop5 ++
         [mkTransaction "t3" "o2" JNull (total_price o) (order_currency o)
            "refund" "success" (refund_method shop5 "o2")]) /\
    (payment_status o = "pending" ->
       payment_status o' = "pending" /\
       transactions (cancel_order "b2" "o2" "t3" 6 (Some []) shop5).1 = transactions shop5).
Proof.
  apply (cancel_order_refund "b2" "o2" "t3" 6 (Some []) shop5).
  vm_compute; reflexivity.
Defined.

(** *** C6 *)

(** C6: after a successful [create_order] the referenced item has status
    exactly reserved, the new order has order_status and payment_status
    pending, and every other item is as before. *)
Theorem create_order_reserves_item pf uid nid now req s s' :
  create_order pf uid nid now req s = (s', Success 201) ->
  exists o it,
    orders s' !! nid = Some o /\ items s !! order_item_id o = Some it /\
    items s' !! order_item_id o = Some (item_set_status it (Some "reserved") now) /\
    order_status o = "pending" /\ payment_status o = "pending" /\
    (forall k, k <> order_item_id o -> items s' !! k = items s !! k).
Proof.
  unfold create_order; intros H; split_handler;
    eexists _, _; split_and!;
    [ apply lookup_insert_eq | eassumption | apply lookup_insert_eq
    | reflexivity | reflexivity
    | intros k Hk; simpl in Hk; apply lookup_insert_ne; congruence ].
Qed.

Lemma create_order_reserves_item_witness :
  exists o it,
    orders shop1 !! "o1" = Some o /\ items shop0 !! order_item_id o = Some it /\
    items shop1 !! order_item_id o = Some (item_set_status it (Some "reserved") 1) /\
    order_status o = "pending" /\ payment_status o = "pending" /\
    (forall k, k <> order_item_id o -> items shop1 !! k = items shop0 !! k).
Proof.
  apply (create_order_reserves_item pg "b1" "o1" 1
           (req_order "i1" "a1") shop0 shop1).
  vm_compute; reflexivity.
Defined.

(** *** C7 *)





(** *** C10 *)

Lemma deliver_first_none (oid : string) (now : Z) (l : list Shipment) :
  (forall sh, In sh l -> shp_order_id sh <> oid) -> deliver_first oid now l = l.
Proof.
  induction l as [|sh l IH]; intros Hl; simpl; [reflexivity|].
  destruct (String.eqb_spec (shp_order_id sh) oid) as [Heq | _].
  - exfalso; apply (Hl sh); [left; reflexivity | exact Heq].
  - f_equal; apply IH; intros sh' Hin; apply Hl; right; exact Hin.
Qed.

Lemma deliver_first_hit (oid : string) (now : Z) (l1 l2 : list Shipment) (sh : Shipment) :
  (forall sh', In sh' l1 -> shp_order_id sh' <> oid) -> shp_order_id sh = oid ->
  deliver_first oid now (l1 ++ sh :: l2) = l1 ++ shipment_delivered sh now :: l2.
Proof.
  induction l1 as [|sh1 l1 IH]; intros Hl Hsh; simpl.
  - rewrite Hsh, String.eqb_refl; reflexivity.
  - destruct (String.eqb_spec (shp_order_id sh1) oid) as [Heq | _].
    + exfalso; apply (Hl sh1); [left; reflexivity | exact Heq].
    + f_equal; apply IH; [intros sh' Hin; apply Hl; right; exact Hin | exact Hsh].
Qed.

(** C10: [confirm_delivery] on an order of the caller in status shipped
    succeeds, setting order_status delivered and delivered_at, whether or
    not a Shipment exists: with no Shipment for the order the shipments
    table is left as it is; otherwise only the first Shipment of the order
    becomes delivered with actual_delivery set. *)
Theorem confirm_delivery_shipment_optional uid oid now s o :
  orders s !! oid = Some o -> buyer_id o = uid -> order_status o = "shipped" ->
  let o' := order_set o "delivered" (payment_status o) now
              (shipped_at o) (Some now) (completed_at o) in
  confirm_delivery uid oid now s =
    (mkState (items s) (addresses s) (<[oid := o']> (orders s))
       (transactions s) (deliver_first oid now (shipments s)), Success 200) /\
  order_status o' = "delivered" /\ delivered_at o' = Some now /\
  ((forall sh, In sh (shipments s) -> shp_order_id sh <> oid) ->
   deliver_first oid now (shipments s) = shipments s) /\
  (forall l1 sh l2, shipments s = l1 ++ sh :: l2 ->
   (forall sh', In sh' l1 -> shp_order_id sh' <> oid) -> shp_order_id sh = oid ->
   deliver_first oid now (shipments s) = l1 ++ shipment_delivered sh now :: l2).
Proof.
  intros Ho Hb Hst o'; split_and!.
  - unfold confirm_delivery, order_of_buyer.
    rewrite Ho, Hb, String.eqb_refl, Hst; reflexivity.
  - reflexivity.
  - reflexivity.
  - apply deliver_first_none.
  - intros l1 sh l2 ->; apply deliver_first_hit.
Qed.

(** [o1] shipped, with no Shipment row left. *)
Lemma confirm_delivery_shipment_optional_witness :
  shipments shop3_noship = [] /\
  exists o, orders shop3_noship !! "o1" = Some o /\
  let o' := order_set o "delivered" (payment_status o) 9
              (shipped_at o) (Some 9) (completed_at o) in
  confirm_delivery "b1" "o1" 9 shop3_noship =
    (mkState (items shop3_noship) (addresses shop3_noship)
       (<[ "o1" := o']> (orders shop3_noship))
       (transactions shop3_noship) (deliver_first "o1" 9 (shipments shop3_noship)),
     Success 200) /\
  order_status o' = "delivered" /\ delivered_at o' = Some 9 /\
  ((forall sh, In sh (shipments shop3_noship) -> shp_order_id sh <> "o1") ->
   deliver_first "o1" 9 (shipments shop3_noship) = shipments shop3_noship) /\
  (forall l1 sh l2, shipments shop3_noship = l1 ++ sh :: l2 ->
   (forall sh', In sh' l1 -> shp_order_id sh' <> "o1") -> shp_order_id sh = "o1" ->
   deliver_first "o1" 9 (shipments shop3_noship) = l1 ++ shipment_delivered sh 9 :: l2).
Proof.
  split; [reflexivity|].
  eexists; split; [vm_compute; reflexivity|].
  apply (confirm_delivery_shipment_optional "b1" "o1" 9 shop3_noship);
    vm_compute; reflexivity.
Defined.
(** *** C3 *)

Lemma paid_status_unknown (o : Order) :
  order_status o = "paid" -> order_status_known o = false.
Proof. unfold order_status_known; intros ->; reflexivity. Qed.

(** C3 (amended): the status check of [ship_order] accepts an order of
    the requesting seller iff its order_status is the string confirmed or
    paid; payment_status is not consulted.  No handler writes paid into
    order_status, so in a reachable state the check accepts exactly the
    confirmed orders.  Once the check passes, with a JSON body, an existing
    item, a fresh shipment id, values of carrier, tracking_number and
    label_url that are not arrays or objects, and a tracking number not
    yet held, the Shipment is appended, the order becomes shipped and the
    item sold. *)
Theorem ship_order_status_check pf uid oid shid now req s o :
  orders s !! oid = Some o -> seller_id o = uid ->
  ((ship_order pf uid oid shid now req s).2 =
     Failure 400 "Order cannot be shipped in current status" <->
   ~ (order_status o = "confirmed" \/ order_status o = "paid")) /\
  (reachable pf s -> ship_status_ok o = true -> order_status o = "confirmed") /\
  (forall data it c trk lb, req = Some data -> ship_status_ok o = true ->
     items s !! order_item_id o = Some it ->
     shipment_id_used s shid = false ->
     str_column pf (body_get_default data "carrier" (JStr "Aramex")) = Some c ->
     str_column pf (body_get_default data "tracking_number" JNull) = Some trk ->
     str_column pf (body_get_default data "label_url" JNull) = Some lb ->
     tracking_clash s trk = false ->
     exists s' sh, ship_order pf uid oid shid now req s = (s', Success 200) /\
       orders s' !! oid = Some (order_set o "shipped" (payment_status o) now
                                   (Some now) (delivered_at o) (completed_at o)) /\
       items s' !! order_item_id o = Some (item_set_status it (Some "sold") now) /\
       shipments s' = shipments s ++ [sh] /\
       shp_order_id sh = oid /\ shp_status sh = "picked_up" /\
       sh = mkShipment shid oid c trk (shipping_cost o) (order_currency o)
              "picked_up" lb None now).
Proof.
  intros Ho Hs; split_and!.
  - unfold ship_order, order_of_seller; rewrite Ho, Hs, String.eqb_refl.
    destruct (ship_status_ok o) eqn:Hok; simpl.
    + split; [intros H; exfalso; repeat case_match; discriminate|].
      unfold ship_status_ok in Hok; str_facts; tauto.
    + split; [intros _|reflexivity].
      unfold ship_status_ok in Hok; str_facts; tauto.
  - intros Hr Hok.
    pose proof (reachable_status_known pf s Hr oid o Ho) as Hk.
    unfold ship_status_ok in Hok; str_facts.
    destruct Hok as [Hc | Hp]; [exact Hc|].
    rewrite (paid_status_unknown o Hp) in Hk; discriminate.
  - intros data it c trk lb -> Hok Hit Hsid Hc Ht Hl Htrk.
    unfold ship_order, order_of_seller; rewrite Ho, Hs, String.eqb_refl, Hok; simpl.
    rewrite Hit, Hc, Ht, Hl, Hsid; simpl; rewrite Htrk.
    eexists _, _; split_and!;
      [reflexivity | apply lookup_insert_eq | apply lookup_insert_eq
      | reflexivity | reflexivity | reflexivity | reflexivity].
Qed.

(** [s1] ships the confirmed, paid order [o2] of [shop5]. *)
Lemma ship_order_status_check_witness :
  exists o, orders shop5 !! "o2" = Some o /\ seller_id o = "s1" /\
  order_status o = "confirmed" /\
  exists s' sh, ship_order pg "s1" "o2" "sh2" 6 (req_ship "TRK2") shop5 = (s', Success 200) /\
    orders s' !! "o2" = Some (order_set o "shipped" (payment_status o) 6
                                (Some 6) (delivered_at o) (completed_at o)) /\
    shipments s' = shipments shop5 ++ [sh] /\ shp_status sh = "picked_up".
Proof.
  eexists; split; [vm_compute; reflexivity|].
  split; [reflexivity|].
  destruct (ship_order_status_check pg "s1" "o2" "sh2" 6
              (req_ship "TRK2") shop5 _ ltac:(vm_compute; reflexivity) eq_refl)
    as (_ & Hconf & Hship).
  split; [apply Hconf; [apply shop5_reachable | reflexivity]|].
  destruct (Hship [("tracking_number", JStr "TRK2")] (mkItem "s1" (Dec 5000 (-2)) "AED" (Some "reserved") 4 [])
              (JStr "Aramex") (JStr "TRK2") JNull
              eq_refl eq_refl ltac:(vm_compute; reflexivity) eq_refl
              eq_refl eq_refl eq_refl eq_refl)
    as (s' & sh & H1 & H2 & _ & H4 & _ & H6 & _).
  exists s', sh; split_and!; assumption.
Defined.

(** C3 counterexample: in the reachable [shop5], order [o1] of seller [s1]
    has payment_status paid and order_status shipped; the claim has Ship
    Order proceed, the code rejects it and changes nothing. *)
Lemma ship_order_paid_rejected :
  reachable pg shop5 /\
  (exists o, orders shop5 !! "o1" = Some o /\ seller_id o = "s1" /\
     payment_status o = "paid" /\ order_status o = "shipped") /\
  ship_order pg "s1" "o1" "sh2" 6 (req_ship "TRK2") shop5 =
    (shop5, Failure 400 "Order cannot be shipped in current status").
Proof.
  split_and!.
  - apply shop5_reachable.
  - eexists; split_and!; [vm_compute; reflexivity | reflexivity ..].
  - vm_compute; reflexivity.
Qed.
(** *** C4 *)

Lemma round_2_places (d : dec) : dec_places_le 2 (round_2 d) = true.
Proof. unfold round_2; destruct (_ <=? _); reflexivity. Qed.

(** C4: when [create_order] succeeds, the stored buyer_protection_fee is
    what the [Numeric(10, 2)] column makes of [item_price * 0.05 + 2.50],
    computed in [Decimal] from the price of the ordered item, and the
    stored total_price what it makes of the [Decimal] sum of that price,
    the shipping cost and the computed fee.  On a backend whose column
    holds values with at most two decimal places, both stored values have
    at most two. *)
Theorem protection_fee_exact pf uid nid now req s s' :
  (forall d, dec_places_le 2 (numeric_10_2 pf d) = true) ->
  create_order pf uid nid now req s = (s', Success 201) ->
  exists o it data sc,
    req = Some data /\ shipping_cost_of pf data = Some sc /\
    orders s' !! nid = Some o /\ items s !! order_item_id o = Some it /\
    buyer_protection_fee o =
      numeric_10_2 pf (dec_add (dec_mul (price it) (Dec 5 (-2))) (Dec 250 (-2))) /\
    total_price o =
      numeric_10_2 pf (dec_add (dec_add (price it) sc)
                         (dec_add (dec_mul (price it) (Dec 5 (-2))) (Dec 250 (-2)))) /\
    dec_places_le 2 (buyer_protection_fee o) = true /\
    dec_places_le 2 (total_price o) = true.
Proof.
  intros Hcol; unfold create_order; intros H; split_handler.
  eexists _, _, _, _; split_and!;
    [reflexivity | eassumption | apply lookup_insert_eq | eassumption
    | reflexivity | reflexivity | apply Hcol | apply Hcol].
Qed.

(** The item priced 100.01 of [shop_cents]: fee 7.5005 and total 122.5105
    are stored as 7.50 and 122.51. *)
Lemma protection_fee_exact_witness :
  (forall d, dec_places_le 2 (numeric_10_2 pg d) = true) /\
  exists o it data sc,
    req_order "i1" "a1" = Some data /\ shipping_cost_of pg data = Some sc /\
    orders (create_order pg "b1" "o1" 1 (req_order "i1" "a1") shop_cents).1
      !! "o1" = Some o /\
    items shop_cents !! order_item_id o = Some it /\
    buyer_protection_fee o =
      numeric_10_2 pg (dec_add (dec_mul (price it) (Dec 5 (-2))) (Dec 250 (-2))) /\
    total_price o =
      numeric_10_2 pg (dec_add (dec_add (price it) sc)
                         (dec_add (dec_mul (price it) (Dec 5 (-2))) (Dec 250 (-2)))) /\
    dec_places_le 2 (buyer_protection_fee o) = true /\
    dec_places_le 2 (total_price o) = true.
Proof.
  split; [apply round_2_places|].
  apply (protection_fee_exact pg "b1" "o1" 1 (req_order "i1" "a1") shop_cents).
  - apply round_2_places.
  - vm_compute; reflexivity.
Defined.

(** *** C5 *)

(** C5 (amended): a [create_order] request naming an item whose status is
    not available fails and leaves the whole state unchanged (no order, no
    item write); when both required fields are present the response is
    HTTP 400 "Item is not available", the status the handler also uses
    for validation failures such as self-purchase; no response of the
    code is a distinct conflict error. *)
Theorem create_order_unavailable pf uid nid now data s iid it :
  key_of (body_get data "item_id") = Some iid ->
  items s !! iid = Some it -> item_status it <> Some "available" ->
  (create_order pf uid nid now (Some data) s).1 = s /\
  is_success (create_order pf uid nid now (Some data) s).2 = false /\
  (truthy (body_get data "item_id") = true ->
   truthy (body_get data "shipping_address_id") = true ->
   (create_order pf uid nid now (Some data) s).2 = Failure 400 "Item is not available").
Proof.
  intros Hk Hit Hne.
  assert (Hav : opt_str_is (item_status it) "available" = false).
  { unfold opt_str_is; destruct (item_status it) as [st|]; [|reflexivity].
    destruct (String.eqb_spec st "available"); congruence. }
  unfold create_order; rewrite Hk, Hit, Hav.
  destruct (truthy (body_get data "item_id")), (truthy (body_get data "shipping_address_id"));
    simpl; split_and!; intros; first [reflexivity | discriminate].
Qed.

(** [b2] orders the reserved item [i1] of [shop1]. *)
Lemma create_order_unavailable_witness :
  (create_order pg "b2" "o9" 6 (req_order "i1" "a2") shop1).1 = shop1 /\
  is_success (create_order pg "b2" "o9" 6 (req_order "i1" "a2") shop1).2 = false /\
  (truthy (Some (JStr "i1")) = true -> truthy (Some (JStr "a2")) = true ->
   (create_order pg "b2" "o9" 6 (req_order "i1" "a2") shop1).2 =
     Failure 400 "Item is not available").
Proof.
  apply (create_order_unavailable pg "b2" "o9" 6
           [("item_id", JStr "i1"); ("shipping_address_id", JStr "a2")] shop1 "i1"
           (item_set_status (mkItem "s1" (Dec 10000 (-2)) "AED" (Some "available") 0 [])
              (Some "reserved") 1)).
  - reflexivity.
  - vm_compute; reflexivity.
  - discriminate.
Defined.

(** C5 counterexample: ordering the reserved item [i1] of the reachable
    [shop1] fails with HTTP 400, not with a conflict error (409); the
    seller buying the own item [i2] gets the same status code. *)
Lemma create_order_unavailable_not_conflict :
  reachable pg shop1 /\
  (exists it, items shop1 !! "i1" = Some it /\ item_status it = Some "reserved") /\
  create_order pg "b2" "o9" 6 (req_order "i1" "a2") shop1 =
    (shop1, Failure 400 "Item is not available") /\
  response_code (create_order pg "b2" "o9" 6 (req_order "i1" "a2") shop1).2
    <> conflict_error_code /\
  create_order pg "s1" "o9" 6 (req_order "i2" "a2") shop1 =
    (shop1, Failure 400 "Cannot buy your own item").
Proof.
  split_and!.
  - apply shop1_reachable.
  - eexists; split; [vm_compute; reflexivity | reflexivity].
  - vm_compute; reflexivity.
  - vm_compute; discriminate.
  - vm_compute; reflexivity.
Qed.
(** *** C8 *)

Ltac shipments_leaf :=
  first [ left; reflexivity
        | right; left; eexists _, _; reflexivity
        | right; right; eexists; split; [reflexivity | assumption] ].

Lemma step_shipments_evolve pf s s' : step pf s s' -> shipments_evolve s s'.
Proof.
  destruct 1.
  - unfold create_order; repeat case_match; left; reflexivity.
  - unfold confirm_payment; repeat case_match; left; reflexivity.
  - unfold ship_order, order_of_seller; split_handler; str_facts; shipments_leaf.
  - unfold confirm_delivery; repeat case_match; shipments_leaf.
  - unfold complete_order; repeat case_match; left; reflexivity.
  - unfold cancel_order; repeat case_match; left; reflexivity.
  - unfold update_item; repeat case_match; left; reflexivity.
  - unfold delete_item; repeat case_match; left; reflexivity.
Qed.

Lemma deliver_first_trackings (oid : string) (now : Z) (l : list Shipment) :
  map tracking_number (deliver_first oid now l) = map tracking_number l.
Proof.
  induction l as [|sh l IH]; simpl; [reflexivity|].
  destruct (String.eqb (shp_order_id sh) oid); simpl; congruence.
Qed.

Lemma tracking_clash_false (s : state) (v : jval) (sh : Shipment) :
  tracking_clash s v = false -> v <> JNull -> In sh (shipments s) ->
  tracking_number sh <> v.
Proof.
  intros Hc Hn Hin Heq.
  assert (He : existsb (fun sh' => bool_decide (tracking_number sh' = v)) (shipments s) = true).
  { apply existsb_exists; exists sh; split; [exact Hin | apply bool_decide_eq_true_2; exact Heq]. }
  unfold tracking_clash in Hc; destruct v; congruence.
Qed.

Lemma tracking_numbers_append (s : state) (sh : Shipment) :
  NoDup (tracking_numbers (shipments s)) ->
  tracking_clash s (tracking_number sh) = false ->
  NoDup (tracking_numbers (shipments s ++ [sh])).
Proof.
  intros Hnd Hc; unfold tracking_numbers in *.
  rewrite map_app, filter_app; simpl.
  apply NoDup_app; split_and!; [exact Hnd | | ].
  - intros x Hx Hx'.
    rewrite list_elem_of_filter, list_elem_of_fmap in Hx.
    destruct Hx as [Hxn (sh' & -> & Hin)].
    rewrite filter_cons in Hx'; case_decide as Hd; [|set_solver].
    apply list_elem_of_singleton in Hx'.
    apply (tracking_clash_false s (tracking_number sh) sh'); auto.
    apply list_elem_of_In; exact Hin.
  - rewrite filter_cons; case_decide; [apply NoDup_singleton | apply NoDup_nil_2].
Qed.

Lemma reachable_trackings_unique pf s :
  reachable pf s -> NoDup (tracking_numbers (shipments s)).
Proof.
  induction 1 as [s [_ [_ Hsh]] | s s' _ IH Hstep].
  - rewrite Hsh; apply NoDup_nil_2.
  - destruct (step_shipments_evolve pf s s' Hstep)
      as [-> | [(oid & now & ->) | (sh & -> & Hc)]].
    + exact IH.
    + unfold tracking_numbers in *; rewrite deliver_first_trackings; exact IH.
    + apply tracking_numbers_append; assumption.
Qed.

Lemma tracking_clash_true (s : state) (sh : Shipment) :
  In sh (shipments s) -> tracking_number sh <> JNull ->
  tracking_clash s (tracking_number sh) = true.
Proof.
  intros Hin Hn.
  remember (tracking_number sh) as v eqn:Hv.
  assert (He : existsb (fun sh' => bool_decide (tracking_number sh' = v)) (shipments s) = true).
  { apply existsb_exists; exists sh; split; [exact Hin | apply bool_decide_eq_true_2; congruence]. }
  unfold tracking_clash; destruct v; congruence.
Qed.

(** C8 (amended): in every reachable state the non-NULL tracking numbers
    of the shipments table are pairwise distinct. A Ship Order call whose
    tracking number, as the [String] column holds it (a string as it is, a
    number as its text), equals the one of an existing Shipment leaves the
    whole state unchanged (no Shipment row; order and item status as
    before) and does not succeed; once the order passes the status check
    the failure is the generic error path (HTTP 500 after rollback), not a
    conflict error. *)
Theorem ship_duplicate_tracking (pf : platform)
    (uid oid shid : string) (now : Z) (data : body) (s : state) (sh0 : Shipment)
    (v : jval) :
  In sh0 (shipments s) -> tracking_number sh0 <> JNull ->
  body_get data "tracking_number" = Some v ->
  str_column pf v = Some (tracking_number sh0) ->
  (reachable pf s -> NoDup (tracking_numbers (shipments s))) /\
  (ship_order pf uid oid shid now (Some data) s).1 = s /\
  is_success (ship_order pf uid oid shid now (Some data) s).2 = false /\
  (forall o, order_of_seller s oid uid = Some o -> ship_status_ok o = true ->
     (ship_order pf uid oid shid now (Some data) s).2 = Crash).
Proof.
  intros Hin Hn Hb Hv.
  assert (Hc : tracking_clash s (tracking_number sh0) = true)
    by (apply tracking_clash_true; assumption).
  assert (Hr : forall o, order_of_seller s oid uid = Some o -> ship_status_ok o = true ->
            ship_order pf uid oid shid now (Some data) s = (s, Crash)).
  { intros o Ho Hok; unfold ship_order; rewrite Ho, Hok; cbn [negb].
    destruct (items s !! order_item_id o); [|reflexivity].
    unfold body_get_default at 2; rewrite Hb, Hv.
    destruct (str_column pf (body_get_default data "carrier" _)); [|reflexivity].
    destruct (str_column pf (body_get_default data "label_url" _)); [|reflexivity].
    rewrite Hc, orb_true_r; reflexivity. }
  split_and!.
  - apply reachable_trackings_unique.
  - destruct (order_of_seller s oid uid) as [o|] eqn:Ho.
    + destruct (ship_status_ok o) eqn:Hok.
      * rewrite (Hr o eq_refl Hok); reflexivity.
      * unfold ship_order; rewrite Ho, Hok; reflexivity.
    + unfold ship_order; rewrite Ho; reflexivity.
  - destruct (order_of_seller s oid uid) as [o|] eqn:Ho.
    + destruct (ship_status_ok o) eqn:Hok.
      * rewrite (Hr o eq_refl Hok); reflexivity.
      * unfold ship_order; rewrite Ho, Hok; reflexivity.
    + unfold ship_order; rewrite Ho; reflexivity.
  - intros o Ho Hok; rewrite (Hr o Ho Hok); reflexivity.
Qed.

(** The shipment [sh1] of [shop5] carries TRK1; [s1] ships [o2] with the
    same tracking number. *)
Lemma ship_duplicate_tracking_witness :
  (reachable pg shop5 -> NoDup (tracking_numbers (shipments shop5))) /\
  (ship_order pg "s1" "o2" "sh2" 6 (req_ship "TRK1") shop5).1 = shop5 /\
  is_success (ship_order pg "s1" "o2" "sh2" 6 (req_ship "TRK1") shop5).2 = false /\
  (forall o, order_of_seller shop5 "o2" "s1" = Some o -> ship_status_ok o = true ->
     (ship_order pg "s1" "o2" "sh2" 6 (req_ship "TRK1") shop5).2 = Crash).
Proof.
  apply (ship_duplicate_tracking pg "s1" "o2" "sh2" 6
           [("tracking_number", JStr "TRK1")] shop5
           (mkShipment "sh1" "o1" (JStr "Aramex") (JStr "TRK1") (Dec 1500 (-2)) "AED"
              "picked_up" JNull None 3) (JStr "TRK1")).
  - vm_compute; left; reflexivity.
  - discriminate.
  - reflexivity.
  - reflexivity.
Defined.

(** C8 counterexample: in the reachable [shop5], shipping the confirmed
    order [o2] with the tracking number TRK1 of the existing Shipment of
    [o1] ends in the generic error (HTTP 500), not in a conflict error. *)
Lemma ship_duplicate_tracking_not_conflict :
  reachable pg shop5 /\
  (exists o, order_of_seller shop5 "o2" "s1" = Some o /\ ship_status_ok o = true) /\
  ship_order pg "s1" "o2" "sh2" 6 (req_ship "TRK1") shop5 = (shop5, Crash) /\
  response_code (ship_order pg "s1" "o2" "sh2" 6 (req_ship "TRK1") shop5).2
    <> conflict_error_code.
Proof.
  split_and!.
  - apply shop5_reachable.
  - eexists; split; [vm_compute; reflexivity | reflexivity].
  - vm_compute; reflexivity.
  - vm_compute; discriminate.
Qed.

(** *** C9 *)

Lemma apply_fields_app pf data fs1 fs2 it :
  apply_fields pf data (fs1 ++ fs2) it =
  match apply_fields pf data fs1 it with
  | Some it1 => apply_fields pf data fs2 it1
  | None => None
  end.
Proof.
  revert it; induction fs1 as [|f fs1 IH]; intros it; [reflexivity|].
  cbn [app apply_fields].
  destruct (body_get data f); [|apply IH].
  destruct (item_setattr pf it f j); [apply IH | reflexivity].
Qed.

(** [status] is the last of the allowed fields: a body carrying a string
    [status] leaves that status in the item. *)
Lemma apply_fields_status pf data it it' st :
  body_get data "status" = Some (JStr st) ->
  apply_fields pf data allowed_fields it = Some it' ->
  item_status it' = Some st.
Proof.
  intros Hb.
  change allowed_fields with
    (["title"; "description"; "price"; "category"; "subcategory";
      "condition"; "brand"; "size"; "color"; "material"] ++ ["status"]).
  rewrite apply_fields_app.
  destruct (apply_fields pf data _ it) as [it1|]; [|discriminate].
  cbn [apply_fields]; rewrite Hb.
  intros H; injection H as <-; reflexivity.
Qed.

(** C9 (amended): the Order Ledger sets the status of the ordered item to
    reserved on order creation, to sold on shipment and to available on
    cancellation, and its other operations leave the items alone; but it is
    not the only writer.  A successful update-item request of the seller
    whose body carries a string [status] leaves that status in the item
    and does not look at the orders: a body carrying only [status] always
    succeeds for the item's seller.  Delete-item sets the status to
    deleted. *)
Theorem item_status_writers (pf : platform) (s : state) :
  (forall uid nid now req s', create_order pf uid nid now req s = (s', Success 201) ->
     exists o it, orders s' !! nid = Some o /\ items s !! order_item_id o = Some it /\
       items s' = <[order_item_id o := item_set_status it (Some "reserved") now]> (items s)) /\
  (forall uid oid shid now req s', ship_order pf uid oid shid now req s = (s', Success 200) ->
     exists o it, orders s !! oid = Some o /\ items s !! order_item_id o = Some it /\
       items s' = <[order_item_id o := item_set_status it (Some "sold") now]> (items s)) /\
  (forall uid oid tid now req s', cancel_order uid oid tid now req s = (s', Success 200) ->
     exists o it, orders s !! oid = Some o /\ items s !! order_item_id o = Some it /\
       items s' = <[order_item_id o := item_set_status it (Some "available") now]> (items s)) /\
  (forall uid oid tid now req, items (confirm_payment pf uid oid tid now req s).1 = items s) /\
  (forall uid oid now, items (confirm_delivery uid oid now s).1 = items s) /\
  (forall uid oid tid now, items (complete_order pf uid oid tid now s).1 = items s) /\
  (forall uid iid now data st s',
     update_item pf uid iid now (Some data) s = (s', Success 200) ->
     body_get data "status" = Some (JStr st) ->
     orders s' = orders s /\
     exists it', items s' !! iid = Some it' /\ item_status it' = Some st) /\
  (forall uid iid now st it, items s !! iid = Some it -> item_seller_id it = uid ->
     update_item pf uid iid now (Some [("status", JStr st)]) s =
       (mkState (<[iid := item_set_status it (Some st) now]> (items s))
          (addresses s) (orders s) (transactions s) (shipments s), Success 200)) /\
  (forall uid iid now it, items s !! iid = Some it -> item_seller_id it = uid ->
     delete_item uid iid now s =
       (mkState (<[iid := item_set_status it (Some "deleted") now]> (items s))
          (addresses s) (orders s) (transactions s) (shipments s), Success 200)).
Proof.
  split_and!.
  - intros uid nid now req s'; unfold create_order; intros H; split_handler.
    eexists _, _; split_and!; [apply lookup_insert_eq | eassumption | reflexivity].
  - intros uid oid shid now req s'; unfold ship_order, order_of_seller; intros H;
      split_handler.
    eexists _, _; split_and!; (reflexivity || eassumption).
  - intros uid oid tid now req s'; unfold cancel_order, order_of_party; intros H;
      split_handler; eexists _, _; split_and!; (reflexivity || eassumption).
  - intros; unfold confirm_payment; repeat case_match; reflexivity.
  - intros; unfold confirm_delivery; repeat case_match; reflexivity.
  - intros; unfold complete_order; repeat case_match; reflexivity.
  - intros uid iid now data st s'; unfold update_item.
    destruct (item_of_seller s iid uid) as [it|]; [|discriminate].
    cbv beta iota.
    destruct (apply_fields pf data allowed_fields it) as [it'|] eqn:Ha; [|discriminate].
    intros H Hb; injection H as <-; split; [reflexivity|].
    eexists; split; [apply lookup_insert_eq|].
    exact (apply_fields_status pf data it it' st Hb Ha).
  - intros uid iid now st it Hit Hsel.
    unfold update_item, item_of_seller; rewrite Hit, Hsel, String.eqb_refl; simpl.
    destruct it; reflexivity.
  - intros uid iid now it Hit Hsel.
    unfold delete_item, item_of_seller; rewrite Hit, Hsel, String.eqb_refl; reflexivity.
Qed.

(** [b1] orders [i1] (reserved), [s1] ships [o1] (sold), [b1] cancels the
    unpaid [o1] (available), and [s1] sets the reserved [i1] of [shop1] to
    available through update-item. *)
Lemma item_status_writers_witness :
  (exists o it, orders shop1 !! "o1" = Some o /\ items shop0 !! order_item_id o = Some it /\
     items shop1 = <[order_item_id o := item_set_status it (Some "reserved") 1]> (items shop0)) /\
  (exists o it, orders shop2 !! "o1" = Some o /\ items shop2 !! order_item_id o = Some it /\
     items shop3 = <[order_item_id o := item_set_status it (Some "sold") 3]> (items shop2)) /\
  (exists o it, orders shop1 !! "o1" = Some o /\ items shop1 !! order_item_id o = Some it /\
     items shopc1 = <[order_item_id o := item_set_status it (Some "available") 2]> (items shop1)) /\
  (orders (update_item pg "s1" "i1" 5 (Some [("status", JStr "available")]) shop1).1
     = orders shop1 /\
   exists it', items (update_item pg "s1" "i1" 5
                        (Some [("status", JStr "available")]) shop1).1 !! "i1" = Some it' /\
     item_status it' = Some "available").
Proof.
  destruct (item_status_writers pg shop0) as (Hc & _).
  destruct (item_status_writers pg shop2) as (_ & Hs & _).
  destruct (item_status_writers pg shop1) as (_ & _ & Hx & _ & _ & _ & Hu & _).
  split; [|split; [|split]].
  - apply (Hc "b1" "o1" 1 (req_order "i1" "a1") shop1); vm_compute; reflexivity.
  - apply (Hs "s1" "o1" "sh1" 3 (req_ship "TRK1") shop3); vm_compute; reflexivity.
  - apply (Hx "b1" "o1" "t0" 2 (Some []) shopc1); vm_compute; reflexivity.
  - apply (Hu "s1" "i1" 5 [("status", JStr "available")] "available");
      vm_compute; reflexivity.
Defined.

(** C9 counterexample: in the reachable [shop1] the pending order [o1]
    references [i1], which is reserved; a plain update-item request of the
    seller sets [i1] to available while [o1] still references it. *)
Lemma update_item_status_referenced :
  reachable pg shop1 /\
  (exists o, orders shop1 !! "o1" = Some o /\ order_item_id o = "i1" /\
             order_status o = "pending") /\
  option_map item_status (items shop1 !! "i1") = Some (Some "reserved") /\
  (update_item pg "s1" "i1" 5
     (Some [("status", JStr "available")]) shop1).2 = Success 200 /\
  option_map item_status
    (items (update_item pg "s1" "i1" 5
              (Some [("status", JStr "available")]) shop1).1 !! "i1")
    = Some (Some "available") /\
  orders (update_item pg "s1" "i1" 5
            (Some [("status", JStr "available")]) shop1).1 = orders shop1.
Proof.
  split_and!.
  - apply shop1_reachable.
  - eexists; split_and!; [vm_compute; reflexivity | reflexivity | reflexivity].
  - vm_compute; reflexivity.
  - vm_compute; reflexivity.
  - vm_compute; reflexivity.
  - reflexivity.
Qed.

(** ** Further properties of the code *)

Lemma pair_ok_cases (o : Order) : pair_ok o = true ->
  (order_status o = "pending" /\ payment_status o = "pending") \/
  (order_status o = "confirmed" /\ payment_status o = "paid") \/
  (order_status o = "shipped" /\ payment_status o = "paid") \/
  (order_status o = "delivered" /\ payment_status o = "paid") \/
  (order_status o = "completed" /\ payment_status o = "paid") \/
  (order_status o = "cancelled" /\ payment_status o = "pending") \/
  (order_status o = "cancelled" /\ payment_status o = "refunded").
Proof.
  intros H; unfold pair_ok in H; cbv zeta in H.
  repeat case_match; try discriminate;
  rewrite ?orb_true_iff, ?orb_false_iff, ?String.eqb_eq, ?String.eqb_neq in *;
  naive_solver.
Qed.

Lemma keys_kept_refl {A} (m : gmap string A) : keys_kept m m.
Proof. intros k H; exact H. Qed.

Lemma keys_kept_insert {A} (m : gmap string A) k v : keys_kept m (<[k:=v]> m).
Proof.
  intros j H; destruct (decide (j = k)) as [->|Hne].
  - rewrite lookup_insert_eq; eauto.
  - rewrite lookup_insert_ne by congruence; exact H.
Qed.

Lemma txn_ok_insert_ne (m : gmap string Order) oid o' t :
  txn_order_id t <> oid -> txn_ok m t -> txn_ok (<[oid:=o']> m) t.
Proof.
  intros Hne (o & Ho & H1 & H2); exists o; split; [|tauto].
  rewrite lookup_insert_ne by congruence; exact Ho.
Qed.

Lemma shp_ok_insert_ne (m : gmap string Order) oid o' sh :
  shp_order_id sh <> oid -> shp_ok m sh -> shp_ok (<[oid:=o']> m) sh.
Proof.
  intros Hne (o & Ho & H1); exists o; split; [|exact H1].
  rewrite lookup_insert_ne by congruence; exact Ho.
Qed.

(** Items rewritten, keys kept, nothing else changed. *)
Lemma inv_items i a m l sh i' :
  ledger_inv (mkState i a m l sh) -> keys_kept i i' ->
  ledger_inv (mkState i' a m l sh).
Proof.
  intros (Ho & Ht & Hp & Hr & Hs & Hn) Hk; split_and!; simpl in *; auto.
  intros k o Hko; destruct (Ho k o Hko); auto.
Qed.

(** An existing order rewritten. *)
Lemma inv_update i a m l sh i' oid o o' :
  ledger_inv (mkState i a m l sh) -> m !! oid = Some o -> keys_kept i i' ->
  pair_ok o' = true -> is_Some (i' !! order_item_id o') ->
  (order_status o = "completed" -> order_status o' = "completed") ->
  (order_status o = "cancelled" /\ payment_status o = "refunded" ->
     order_status o' = "cancelled" /\ payment_status o' = "refunded") ->
  (shipped_like o = true -> shipped_like o' = true) ->
  ledger_inv (mkState i' a (<[oid:=o']> m) l sh).
Proof.
  intros (Ho & Ht & Hp & Hr & Hs & Hn) Hoid Hk Hpair Hit Hc Hcr Hsl;
    split_and!; simpl in *; auto.
  - intros k p Hkp; destruct (decide (k = oid)) as [->|Hne].
    + rewrite lookup_insert_eq in Hkp; injection Hkp as <-; auto.
    + rewrite lookup_insert_ne in Hkp by congruence.
      destruct (Ho k p Hkp); auto.
  - eapply Forall_impl; [exact Ht|]; intros t Htk.
    destruct (decide (txn_order_id t = oid)) as [He|Hne].
    + destruct Htk as (p & Hp' & H1 & H2).
      rewrite He, Hoid in Hp'; injection Hp' as <-.
      exists o'; rewrite He, lookup_insert_eq; split_and!; [reflexivity| |]; auto.
    + apply txn_ok_insert_ne; assumption.
  - eapply Forall_impl; [exact Hs|]; intros x Hx.
    destruct (decide (shp_order_id x = oid)) as [He|Hne].
    + destruct Hx as (p & Hp' & H1).
      rewrite He, Hoid in Hp'; injection Hp' as <-.
      exists o'; rewrite He, lookup_insert_eq; auto.
    + apply shp_ok_insert_ne; assumption.
Qed.

(** A new order inserted. *)
Lemma inv_new i a m l sh i' nid o' :
  ledger_inv (mkState i a m l sh) -> m !! nid = None -> keys_kept i i' ->
  pair_ok o' = true -> is_Some (i' !! order_item_id o') ->
  ledger_inv (mkState i' a (<[nid:=o']> m) l sh).
Proof.
  intros (Ho & Ht & Hp & Hr & Hs & Hn) Hnid Hk Hpair Hit;
    split_and!; simpl in *; auto.
  - intros k p Hkp; destruct (decide (k = nid)) as [->|Hne].
    + rewrite lookup_insert_eq in Hkp; injection Hkp as <-; auto.
    + rewrite lookup_insert_ne in Hkp by congruence.
      destruct (Ho k p Hkp); auto.
  - eapply Forall_impl; [exact Ht|]; intros t Htk.
    apply txn_ok_insert_ne; [|exact Htk].
    destruct Htk as (p & Hp' & _); congruence.
  - eapply Forall_impl; [exact Hs|]; intros x Hx.
    apply shp_ok_insert_ne; [|exact Hx].
    destruct Hx as (p & Hp' & _); congruence.
Qed.

Lemma typed_orders_app ty l t :
  typed_orders ty (l ++ [t]) =
  typed_orders ty l ++ (if decide (transaction_type t = ty) then [txn_order_id t] else []).
Proof.
  unfold typed_orders; rewrite filter_app, map_app; f_equal.
  rewrite filter_cons, filter_nil; case_decide; reflexivity.
Qed.

Lemma nodup_snoc {A} (l : list A) (x : A) (b : bool) :
  NoDup l -> (b = true -> x ∉ l) -> NoDup (l ++ if b then [x] else []).
Proof.
  intros Hl Hx; destruct b.
  - apply NoDup_app; split_and!; [exact Hl| |apply NoDup_singleton].
    intros y Hy Hy'; apply list_elem_of_singleton in Hy'; subst y.
    exact (Hx eq_refl Hy).
  - rewrite app_nil_r; exact Hl.
Qed.

(** A transaction appended. *)
Lemma inv_txn i a m l sh t :
  ledger_inv (mkState i a m l sh) -> txn_ok m t ->
  (transaction_type t = "payout" -> txn_order_id t ∉ typed_orders "payout" l) ->
  (transaction_type t = "refund" -> txn_order_id t ∉ typed_orders "refund" l) ->
  ledger_inv (mkState i a m (l ++ [t]) sh).
Proof.
  intros (Ho & Ht & Hp & Hr & Hs & Hn) Hok Hpo Hre; split_and!; simpl in *; auto.
  - apply Forall_app; split; [exact Ht | apply Forall_singleton; exact Hok].
  - rewrite typed_orders_app.
    replace (if decide (transaction_type t = "payout") then [txn_order_id t] else [])
      with (if bool_decide (transaction_type t = "payout") then [txn_order_id t] else [])
      by (case_decide; case_bool_decide; tauto).
    apply nodup_snoc; [exact Hp|]; intros Hb; apply bool_decide_eq_true in Hb; auto.
  - rewrite typed_orders_app.
    replace (if decide (transaction_type t = "refund") then [txn_order_id t] else [])
      with (if bool_decide (transaction_type t = "refund") then [txn_order_id t] else [])
      by (case_decide; case_bool_decide; tauto).
    apply nodup_snoc; [exact Hr|]; intros Hb; apply bool_decide_eq_true in Hb; auto.
Qed.

(** A shipment appended. *)
Lemma inv_shp i a m l sh x :
  ledger_inv (mkState i a m l sh) -> shp_ok m x ->
  shp_order_id x ∉ map shp_order_id sh ->
  ledger_inv (mkState i a m l (sh ++ [x])).
Proof.
  intros (Ho & Ht & Hp & Hr & Hs & Hn) Hok Hx; split_and!; simpl in *; auto.
  - apply Forall_app; split; [exact Hs | apply Forall_singleton; exact Hok].
  - rewrite map_app; simpl.
    apply (nodup_snoc _ _ true); [exact Hn|]; auto.
Qed.

Lemma deliver_first_order_ids oid now l :
  map shp_order_id (deliver_first oid now l) = map shp_order_id l.
Proof.
  induction l as [|x l IH]; simpl; [reflexivity|].
  destruct (String.eqb (shp_order_id x) oid); simpl; congruence.
Qed.

Lemma deliver_first_forall (P : string -> Prop) oid now l :
  Forall (fun x => P (shp_order_id x)) l ->
  Forall (fun x => P (shp_order_id x)) (deliver_first oid now l).
Proof.
  induction l as [|x l IH]; simpl; [auto|]; intros Hl; inversion Hl; subst.
  destruct (String.eqb (shp_order_id x) oid); constructor; auto.
Qed.

(** The first shipment of an order marked delivered. *)
Lemma inv_deliver i a m l sh oid now :
  ledger_inv (mkState i a m l sh) ->
  ledger_inv (mkState i a m l (deliver_first oid now sh)).
Proof.
  intros (Ho & Ht & Hp & Hr & Hs & Hn); split_and!; simpl in *; auto.
  - apply (deliver_first_forall (fun k => exists o, m !! k = Some o /\ shipped_like o = true)).
    exact Hs.
  - rewrite deliver_first_order_ids; exact Hn.
Qed.

Lemma inv_no_payout i a m l sh oid o :
  ledger_inv (mkState i a m l sh) -> m !! oid = Some o ->
  order_status o <> "completed" -> oid ∉ typed_orders "payout" l.
Proof.
  intros (_ & Ht & _) Hoid Hne Hin; simpl in *.
  unfold typed_orders in Hin; apply list_elem_of_fmap in Hin as (t & -> & Ht').
  apply list_elem_of_filter in Ht' as [Hty Hin].
  rewrite Forall_forall in Ht; destruct (Ht t Hin) as (p & Hp & H1 & _).
  rewrite Hoid in Hp; injection Hp as <-; auto.
Qed.

Lemma inv_no_refund i a m l sh oid o :
  ledger_inv (mkState i a m l sh) -> m !! oid = Some o ->
  ~ (order_status o = "cancelled" /\ payment_status o = "refunded") ->
  oid ∉ typed_orders "refund" l.
Proof.
  intros (_ & Ht & _) Hoid Hne Hin; simpl in *.
  unfold typed_orders in Hin; apply list_elem_of_fmap in Hin as (t & -> & Ht').
  apply list_elem_of_filter in Ht' as [Hty Hin].
  rewrite Forall_forall in Ht; destruct (Ht t Hin) as (p & Hp & _ & H2).
  rewrite Hoid in Hp; injection Hp as <-; auto.
Qed.

Lemma inv_no_shipment i a m l sh oid o :
  ledger_inv (mkState i a m l sh) -> m !! oid = Some o ->
  shipped_like o = false -> oid ∉ map shp_order_id sh.
Proof.
  intros (_ & _ & _ & _ & Hs & _) Hoid Hne Hin; simpl in *.
  apply list_elem_of_fmap in Hin as (x & -> & Hx).
  rewrite Forall_forall in Hs; destruct (Hs x Hx) as (p & Hp & H1).
  rewrite Hoid in Hp; injection Hp as <-; congruence.
Qed.

Ltac get_pair :=
  match goal with
  | Hm : ?m !! _ = Some ?o, H : ledger_inv (mkState _ _ ?m _ _) |- _ =>
    let Hp := fresh "Hp" in let Hi := fresh "Hi" in
    destruct (proj1 H _ _ Hm) as [Hp Hi]
  end.

Ltac with_status :=
  match goal with
  | Hp : pair_ok ?o = true |- _ =>
    apply pair_ok_cases in Hp;
    destruct o as [? ? ? ? ? ? ? ? ? ? ? ? ? ? ? ?]; simpl in Hp;
    destruct Hp as [[-> ->]|[[-> ->]|[[-> ->]|[[-> ->]|[[-> ->]|[[-> ->]|[-> ->]]]]]]];
    simpl in *; try discriminate; try congruence;
    try (repeat match goal with Hd : _ \/ _ |- _ => destruct Hd end; discriminate)
  end.

Ltac side :=
  simpl;
  first [ reflexivity | assumption
        | intros; discriminate | intros [? ?]; discriminate
        | intros _; reflexivity | intros _; split; reflexivity
        | rewrite lookup_insert_eq; eauto ].

Lemma create_order_inv pf uid nid now req s :
  ledger_inv s -> ledger_inv (create_order pf uid nid now req s).1.
Proof.
  destruct s as [i a m l sh]; unfold create_order; simpl; intros H;
    split_handler; try exact H.
  eapply inv_new; [exact H | assumption | apply keys_kept_insert | reflexivity |].
  simpl; rewrite lookup_insert_eq; eauto.
Qed.

Lemma confirm_payment_inv pf uid oid tid now req s :
  ledger_inv s -> ledger_inv (confirm_payment pf uid oid tid now req s).1.
Proof.
  destruct s as [i a m l sh]; unfold confirm_payment, order_of_buyer; simpl; intros H;
    split_handler; try exact H; str_facts; get_pair; with_status.
  all: apply inv_txn; [eapply inv_update; [exact H | eassumption | apply keys_kept_refl | side ..]
                      | eexists; split_and!; [apply lookup_insert_eq | side ..] | side | side].
Qed.

Lemma ship_order_inv pf uid oid shid now req s :
  ledger_inv s -> ledger_inv (ship_order pf uid oid shid now req s).1.
Proof.
  destruct s as [i a m l sh]; unfold ship_order, order_of_seller; simpl; intros H;
    split_handler; try exact H; str_facts; get_pair; with_status.
  apply inv_shp; [eapply inv_update; [exact H | eassumption | apply keys_kept_insert | side ..]
                 | eexists; split; [apply lookup_insert_eq | reflexivity]
                 | eapply inv_no_shipment; [exact H | eassumption | reflexivity]].
Qed.

Lemma confirm_delivery_inv uid oid now s :
  ledger_inv s -> ledger_inv (confirm_delivery uid oid now s).1.
Proof.
  destruct s as [i a m l sh]; unfold confirm_delivery, order_of_buyer; simpl; intros H;
    split_handler; try exact H; str_facts; get_pair; with_status.
  apply inv_deliver; eapply inv_update; [exact H | eassumption | apply keys_kept_refl | side ..].
Qed.

Lemma complete_order_inv pf uid oid tid now s :
  ledger_inv s -> ledger_inv (complete_order pf uid oid tid now s).1.
Proof.
  destruct s as [i a m l sh]; unfold complete_order, order_of_buyer; simpl; intros H;
    split_handler; try exact H; str_facts; get_pair; with_status.
  apply inv_txn; [eapply inv_update; [exact H | eassumption | apply keys_kept_refl | side ..]
                 | eexists; split_and!; [apply lookup_insert_eq | side ..]
                 | intros _; eapply inv_no_payout; [exact H | eassumption | discriminate]
                 | side].
Qed.

Lemma cancel_order_inv uid oid tid now req s :
  ledger_inv s -> ledger_inv (cancel_order uid oid tid now req s).1.
Proof.
  destruct s as [i a m l sh]; unfold cancel_order, order_of_party; simpl; intros H;
    split_handler; try exact H; str_facts; get_pair; with_status.
  all: first
    [ apply inv_txn; [eapply inv_update; [exact H | eassumption | apply keys_kept_insert | side ..]
                     | eexists; split_and!; [apply lookup_insert_eq | side ..]
                     | side
                     | intros _; eapply inv_no_refund;
                         [exact H | eassumption | simpl; intros [? ?]; discriminate]]
    | eapply inv_update; [exact H | eassumption | apply keys_kept_insert | side ..] ].
Qed.

Lemma update_item_inv pf uid iid now req s :
  ledger_inv s -> ledger_inv (update_item pf uid iid now req s).1.
Proof.
  intros H; unfold update_item; repeat case_match; try exact H.
  destruct s as [its ads ords txs shs]; apply (inv_items its); [exact H | apply keys_kept_insert].
Qed.

Lemma delete_item_inv uid iid now s :
  ledger_inv s -> ledger_inv (delete_item uid iid now s).1.
Proof.
  destruct s as [i a m l sh]; unfold delete_item, item_of_seller; simpl; intros H.
  repeat case_match; try exact H.
  all: apply (inv_items i); [exact H | apply keys_kept_insert].
Qed.

Lemma step_inv pf s s' : step pf s s' -> ledger_inv s -> ledger_inv s'.
Proof.
  destruct 1.
  - apply create_order_inv.
  - apply confirm_payment_inv.
  - apply ship_order_inv.
  - apply confirm_delivery_inv.
  - apply complete_order_inv.
  - apply cancel_order_inv.
  - apply update_item_inv.
  - apply delete_item_inv.
Qed.

Lemma reachable_inv pf s : reachable pf s -> ledger_inv s.
Proof.
  induction 1 as [s (Ho & Ht & Hs) | s s' _ IH Hstep].
  - split_and!; rewrite ?Ho, ?Ht, ?Hs.
    + intros k o; rewrite lookup_empty; discriminate.
    + constructor.
    + constructor.
    + constructor.
    + constructor.
    + constructor.
  - eapply step_inv; eassumption.
Qed.

Lemma moves_same s s' : orders s' = orders s -> moves_ok s s'.
Proof. intros He k o Hk; exists o; rewrite He; auto. Qed.

Lemma moves_insert s s' oid o0 o' :
  orders s' = <[oid:=o']> (orders s) -> orders s !! oid = Some o0 ->
  status_of o' = status_of o0 \/ lifecycle_edge (status_of o0) (status_of o') = true ->
  moves_ok s s'.
Proof.
  intros He Hoid Hm k o Hk; rewrite He.
  destruct (decide (k = oid)) as [->|Hne].
  - rewrite Hoid in Hk; injection Hk as <-; rewrite lookup_insert_eq; eauto.
  - rewrite lookup_insert_ne by congruence; eauto.
Qed.

Lemma moves_new s s' nid o' :
  orders s' = <[nid:=o']> (orders s) -> orders s !! nid = None -> moves_ok s s'.
Proof.
  intros He Hn k o Hk; rewrite He.
  rewrite lookup_insert_ne by congruence; eauto.
Qed.

Ltac moves_leaf :=
  first [ apply moves_same; reflexivity
        | eapply moves_new; [reflexivity | eassumption]
        | eapply moves_insert; [reflexivity | eassumption | first [left; reflexivity | right; reflexivity]] ].

Lemma step_moves pf s s' : step pf s s' -> ledger_inv s -> moves_ok s s'.
Proof.
  destruct 1 as [uid nid now req s|uid oid tid now req s|uid oid shid now req s
                |uid oid now s|uid oid tid now s|uid oid tid now req s
                |uid iid now req s|uid iid now s];
    destruct s as [i a m l sh]; intros H.
  - unfold create_order; simpl; split_handler; moves_leaf.
  - unfold confirm_payment, order_of_buyer; simpl; split_handler; try moves_leaf;
      str_facts; get_pair; with_status; moves_leaf.
  - unfold ship_order, order_of_seller; simpl; split_handler; try moves_leaf;
      str_facts; get_pair; with_status; moves_leaf.
  - unfold confirm_delivery, order_of_buyer; simpl; split_handler; try moves_leaf;
      str_facts; get_pair; with_status; moves_leaf.
  - unfold complete_order, order_of_buyer; simpl; split_handler; try moves_leaf;
      str_facts; get_pair; with_status; moves_leaf.
  - unfold cancel_order, order_of_party; simpl; split_handler; try moves_leaf;
      str_facts; get_pair; with_status; moves_leaf.
  - unfold update_item; repeat case_match; apply moves_same; reflexivity.
  - unfold delete_item; simpl; repeat case_match; apply moves_same; reflexivity.
Qed.

Lemma history_same s s' :
  transactions s' = transactions s -> shipments s' = shipments s ->
  keys_kept (items s) (items s') -> keys_kept (orders s) (orders s') ->
  history_kept s s'.
Proof.
  intros Ht Hs Hi Ho; split_and!; auto.
  - exists []; rewrite Ht, app_nil_r; reflexivity.
  - exists []; rewrite Hs, app_nil_r; reflexivity.
Qed.

Lemma deliver_first_ids oid now l :
  map shp_id (deliver_first oid now l) = map shp_id l.
Proof.
  induction l as [|x l IH]; simpl; [reflexivity|].
  destruct (String.eqb (shp_order_id x) oid); simpl; congruence.
Qed.

Ltac hist_leaf :=
  split_and!;
  first [ exists []; simpl; rewrite ?app_nil_r; reflexivity
        | eexists; simpl; reflexivity
        | exists []; simpl; rewrite deliver_first_ids, app_nil_r; reflexivity
        | exists []; simpl; rewrite map_app; reflexivity
        | eexists; simpl; rewrite map_app; reflexivity
        | apply keys_kept_refl | apply keys_kept_insert ].

Lemma step_history pf s s' : step pf s s' -> history_kept s s'.
Proof.
  destruct 1 as [uid nid now req s|uid oid tid now req s|uid oid shid now req s
                |uid oid now s|uid oid tid now s|uid oid tid now req s
                |uid iid now req s|uid iid now s];
    destruct s as [i a m l sh].
  - unfold create_order; simpl; split_handler; hist_leaf.
  - unfold confirm_payment, order_of_buyer; simpl; split_handler; hist_leaf.
  - unfold ship_order, order_of_seller; simpl; split_handler; hist_leaf.
  - unfold confirm_delivery, order_of_buyer; simpl; split_handler; hist_leaf.
  - unfold complete_order, order_of_buyer; simpl; split_handler; hist_leaf.
  - unfold cancel_order, order_of_party; simpl; split_handler; hist_leaf.
  - unfold update_item; repeat case_match; hist_leaf.
  - unfold delete_item; simpl; repeat case_match; hist_leaf.
Qed.

Lemma shopc3_reachable : reachable pg shopc3.
Proof.
  apply (reach_step _ shopc2); [apply (reach_step _ shopc1);
    [apply (reach_step _ shop1); [apply shop1_reachable|] |] |].
  - unfold shopc1; apply step_cancel.
  - unfold shopc2; apply step_create.
  - unfold shopc3; apply step_confirm_payment.
Qed.

Lemma shopc4_reachable : reachable pg shopc4.
Proof.
  apply (reach_step _ shopc3); [apply shopc3_reachable |].
  unfold shopc4; apply step_ship.
Qed.

Lemma edge_from_final (a b : string * string) :
  a = ("completed", "paid") \/ a = ("cancelled", "refunded") ->
  lifecycle_edge a b = false.
Proof.
  intros Ha; unfold lifecycle_edge; apply bool_decide_eq_false_2.
  rewrite !elem_of_cons, elem_of_nil.
  destruct Ha as [-> | ->]; intros H; repeat (destruct H as [H|H]; [simplify_eq|]); exact H.
Qed.

(** X1: in every reachable state each order's (order_status, payment_status)
    pair is one the handlers produce together: pending with pending;
    confirmed, shipped, delivered or completed with paid; cancelled with
    pending or refunded. *)
Theorem reachable_status_pairs pf s :
  reachable pf s -> forall k o, orders s !! k = Some o -> pair_ok o = true.
Proof.
  intros Hr k o Hk; apply (proj1 (reachable_inv pf s Hr) k o Hk).
Qed.

Lemma reachable_status_pairs_witness :
  exists o, orders shopc4 !! "o3" = Some o /\ pair_ok o = true.
Proof.
  eexists; split; [vm_compute; reflexivity |].
  apply (reachable_status_pairs pg shopc4 shopc4_reachable "o3").
  vm_compute; reflexivity.
Defined.

(** X2: from a reachable state, one request leaves every order in place and
    either keeps its status pair or moves it along one [lifecycle_edge];
    completed/paid and cancelled/refunded orders never change status. *)
Theorem order_lifecycle pf s s' :
  reachable pf s -> step pf s s' ->
  moves_ok s s' /\
  (forall k o, orders s !! k = Some o ->
     status_of o = ("completed", "paid") \/ status_of o = ("cancelled", "refunded") ->
     exists o', orders s' !! k = Some o' /\ status_of o' = status_of o).
Proof.
  intros Hr Hs.
  assert (Hm : moves_ok s s') by (eapply step_moves; [exact Hs | eapply reachable_inv; exact Hr]).
  split; [exact Hm|].
  intros k o Hk Hf; destruct (Hm k o Hk) as (o' & Hk' & [He | He]).
  - eauto.
  - rewrite edge_from_final in He by exact Hf; discriminate.
Qed.

Lemma order_lifecycle_witness :
  moves_ok shopc3 shopc4 /\
  (forall k o, orders shopc3 !! k = Some o ->
     status_of o = ("completed", "paid") \/ status_of o = ("cancelled", "refunded") ->
     exists o', orders shopc4 !! k = Some o' /\ status_of o' = status_of o).
Proof.
  apply (order_lifecycle pg shopc3 shopc4).
  - apply shopc3_reachable.
  - unfold shopc4; apply step_ship.
Defined.

(** X3: in every reachable state each shipment refers to an existing
    order in status shipped, delivered or completed, and no order has two
    shipments. *)
Theorem reachable_shipments_consistent pf s :
  reachable pf s ->
  (forall sh, In sh (shipments s) ->
     exists o, orders s !! shp_order_id sh = Some o /\ shipped_like o = true) /\
  NoDup (map shp_order_id (shipments s)).
Proof.
  intros Hr; destruct (reachable_inv pf s Hr) as (_ & _ & _ & _ & Hs & Hn).
  split; [|exact Hn].
  intros sh Hin; rewrite Forall_forall in Hs; apply Hs, list_elem_of_In, Hin.
Qed.

(** X4: in every reachable state a payout transaction refers to a completed
    order and a refund to a cancelled and refunded order, and no order has
    two payouts or two refunds. *)
Theorem reachable_payouts_refunds pf s :
  reachable pf s ->
  (forall t, In t (transactions s) -> transaction_type t = "payout" ->
     exists o, orders s !! txn_order_id t = Some o /\ order_status o = "completed") /\
  (forall t, In t (transactions s) -> transaction_type t = "refund" ->
     exists o, orders s !! txn_order_id t = Some o /\
       order_status o = "cancelled" /\ payment_status o = "refunded") /\
  NoDup (typed_orders "payout" (transactions s)) /\
  NoDup (typed_orders "refund" (transactions s)).
Proof.
  intros Hr; destruct (reachable_inv pf s Hr) as (_ & Ht & Hp & Hf & _).
  rewrite Forall_forall in Ht; split_and!; try assumption.
  - intros t Hin Hty; destruct (Ht t (proj2 (list_elem_of_In _ _) Hin)) as (o & Ho & H1 & _).
    eauto.
  - intros t Hin Hty; destruct (Ht t (proj2 (list_elem_of_In _ _) Hin)) as (o & Ho & _ & H2).
    exists o; split; [exact Ho | apply H2, Hty].
Qed.

(** X5: in every reachable state every order's item exists and every
    transaction's order exists. *)
Theorem reachable_references pf s :
  reachable pf s ->
  (forall k o, orders s !! k = Some o -> is_Some (items s !! order_item_id o)) /\
  (forall t, In t (transactions s) -> is_Some (orders s !! txn_order_id t)).
Proof.
  intros Hr; destruct (reachable_inv pf s Hr) as (Ho & Ht & _).
  split.
  - intros k o Hk; apply (Ho k o Hk).
  - rewrite Forall_forall in Ht; intros t Hin.
    destruct (Ht t (proj2 (list_elem_of_In _ _) Hin)) as (o & H & _); eauto.
Qed.

(** X6: no request removes rows: transactions are only appended, shipments
    keep their rows in order, and no item or order disappears. *)
Theorem step_keeps_history pf s s' : step pf s s' -> history_kept s s'.
Proof. apply step_history. Qed.

Lemma str_column_string pf v lit : jval_is v lit = true -> str_column pf v = Some v.
Proof. destruct v; simpl; congruence. Qed.

(** X8: [confirm_payment] by the buyer, cash on delivery, on a cancelled
    unpaid order succeeds (when payment_gateway_id is not an array or an
    object): the order becomes confirmed and paid, and the item rows are
    not touched. *)
Theorem confirm_payment_revives_cancelled (pf : platform) (s : state)
    (uid oid tid : string) (now : Z) (data : body) (o : Order) :
  orders s !! oid = Some o -> buyer_id o = uid ->
  order_status o = "cancelled" -> payment_status o = "pending" ->
  jval_is (body_get_default data "payment_method" (JStr "cod")) "cod" = true ->
  str_column pf (body_get_default data "payment_gateway_id" JNull) <> None ->
  txn_id_used s tid = false ->
  exists s' o',
    confirm_payment pf uid oid tid now (Some data) s = (s', Success 200) /\
    orders s' !! oid = Some o' /\
    order_status o' = "confirmed" /\ payment_status o' = "paid" /\
    order_item_id o' = order_item_id o /\ items s' = items s.
Proof.
  intros Ho Hb Hos Hps Hcod Hgw Ht.
  unfold confirm_payment, order_of_buyer; rewrite Ho, Hb, String.eqb_refl, Hps; simpl.
  rewrite Hcod, (str_column_string pf _ "cod" Hcod).
  destruct (str_column pf (body_get_default data "payment_gateway_id" JNull));
    [|congruence].
  rewrite Ht.
  eexists _, _; split_and!; [reflexivity | apply lookup_insert_eq | reflexivity ..].
Qed.

Lemma confirm_payment_revives_cancelled_witness :
  exists s' o',
    confirm_payment pg "b1" "o1" "t1" 4 (Some []) shopc2 = (s', Success 200) /\
    orders s' !! "o1" = Some o' /\
    order_status o' = "confirmed" /\ payment_status o' = "paid" /\
    order_item_id o' = "i1" /\ items s' = items shopc2.
Proof.
  apply (confirm_payment_revives_cancelled pg shopc2 "b1" "o1" "t1" 4 []
           (mkOrder "b1" "s1" "i1" "a1" (Dec 10000 (-2)) (Dec 1500 (-2))
              (Dec 750 (-2)) (Dec 12250 (-2)) "AED" "cancelled" "pending" 1 2
              None None None)); first [vm_compute; reflexivity | discriminate].
Defined.

Lemma shop8_reachable : reachable pg shop8.
Proof.
  apply (reach_step _ shop7); [apply (reach_step _ shop6); [apply shop6_reachable|] |].
  - unfold shop7; apply step_complete.
  - unfold shop8; apply step_cancel.
Qed.

Lemma reachable_shipments_consistent_witness :
  (forall sh, In sh (shipments shopc4) ->
     exists o, orders shopc4 !! shp_order_id sh = Some o /\ shipped_like o = true) /\
  NoDup (map shp_order_id (shipments shopc4)).
Proof. apply (reachable_shipments_consistent pg shopc4), shopc4_reachable. Defined.

Lemma reachable_payouts_refunds_witness :
  (forall t, In t (transactions shop8) -> transaction_type t = "payout" ->
     exists o, orders shop8 !! txn_order_id t = Some o /\ order_status o = "completed") /\
  (forall t, In t (transactions shop8) -> transaction_type t = "refund" ->
     exists o, orders shop8 !! txn_order_id t = Some o /\
       order_status o = "cancelled" /\ payment_status o = "refunded") /\
  NoDup (typed_orders "payout" (transactions shop8)) /\
  NoDup (typed_orders "refund" (transactions shop8)).
Proof. apply (reachable_payouts_refunds pg shop8), shop8_reachable. Defined.

Lemma reachable_references_witness :
  (forall k o, orders shop8 !! k = Some o -> is_Some (items shop8 !! order_item_id o)) /\
  (forall t, In t (transactions shop8) -> is_Some (orders shop8 !! txn_order_id t)).
Proof. apply (reachable_references pg shop8), shop8_reachable. Defined.

Lemma step_keeps_history_witness : history_kept shop7 shop8.
Proof. apply (step_keeps_history pg shop7 shop8); unfold shop8; apply step_cancel. Defined.

(** X7: a reachable state has two orders on the same item, one shipped and
    one pending, with the item sold: [confirm_payment] accepts a cancelled
    order whose item has been ordered again. *)
Theorem reachable_item_double_booked :
  exists s o1 o3,
    reachable pg s /\
    orders s !! "o1" = Some o1 /\ orders s !! "o3" = Some o3 /\
    order_item_id o1 = order_item_id o3 /\
    order_status o1 = "shipped" /\ order_status o3 = "pending" /\
    option_map item_status (items s !! order_item_id o1) = Some (Some "sold").
Proof.
  exists shopc4; eexists _, _; split; [apply shopc4_reachable|].
  split; [vm_compute; reflexivity|]; split; [vm_compute; reflexivity|].
  split_and!; vm_compute; reflexivity.
Qed.

(** X9: [confirm_payment] with a payment method other than cod succeeds
    without changing the status pair (pending, pending), appends a payment
    transaction in status pending, and leaves the order open to the same
    call; the transaction holds what the [String] columns make of
    payment_gateway_id and payment_method (neither an array nor an
    object). *)
Theorem confirm_payment_non_cod (pf : platform) (s : state) (uid oid tid : string)
    (now : Z) (data : body) (o : Order) (v v' g : jval) :
  order_of_buyer s oid uid = Some o -> payment_status o = "pending" ->
  body_get data "payment_method" = Some v -> jval_is v "cod" = false ->
  str_column pf v = Some v' ->
  str_column pf (body_get_default data "payment_gateway_id" JNull) = Some g ->
  txn_id_used s tid = false ->
  exists s' o',
    confirm_payment pf uid oid tid now (Some data) s = (s', Success 200) /\
    orders s' !! oid = Some o' /\
    order_status o' = "pending" /\ payment_status o' = "pending" /\
    transactions s' = transactions s ++
      [mkTransaction tid oid g (total_price o) (order_currency o) "payment" "pending" v'] /\
    order_of_buyer s' oid uid = Some o'.
Proof.
  intros Ho Hps Hv Hc Hv' Hg Ht.
  assert (Hpm : body_get_default data "payment_method" (JStr "cod") = v)
    by (unfold body_get_default; rewrite Hv; reflexivity).
  unfold confirm_payment; rewrite Ho, Hps, String.eqb_refl; cbn [negb].
  cbv beta iota zeta; rewrite Hpm, Hc, Hg, Hv', Ht; cbv beta iota.
  eexists _, _; split_and!; [reflexivity | apply lookup_insert_eq | reflexivity ..|].
  unfold order_of_buyer in *; simpl; rewrite lookup_insert_eq.
  destruct (orders s !! oid) as [p|]; [|discriminate].
  destruct (String.eqb (buyer_id p) uid) eqn:Hb; [|discriminate].
  injection Ho as <-; simpl; rewrite Hb; reflexivity.
Qed.

Lemma confirm_payment_non_cod_witness :
  exists s' o',
    confirm_payment pg "b1" "o1" "t1" 2 (Some [("payment_method", JStr "card")]) shop1
      = (s', Success 200) /\
    orders s' !! "o1" = Some o' /\
    order_status o' = "pending" /\ payment_status o' = "pending" /\
    transactions s' = transactions shop1 ++
      [mkTransaction "t1" "o1" JNull (Dec 12250 (-2)) "AED" "payment" "pending" (JStr "card")] /\
    order_of_buyer s' "o1" "b1" = Some o'.
Proof.
  apply (confirm_payment_non_cod pg shop1 "b1" "o1" "t1" 2 [("payment_method", JStr "card")]
           (mkOrder "b1" "s1" "i1" "a1" (Dec 10000 (-2)) (Dec 1500 (-2))
              (Dec 750 (-2)) (Dec 12250 (-2)) "AED" "pending" "pending" 1 1
              None None None) (JStr "card") (JStr "card") JNull); vm_compute; reflexivity.
Defined.

(** The request body of [create_order] with a numeric shipping_cost, on
    an available item of another seller and an address of the caller. *)
Lemma create_order_body_ok (pf : platform)
    (uid nid : string) (now : Z) (s : state) (iid aid : string) (it : Item) (d : dec) :
  items s !! iid = Some it -> item_status it = Some "available" ->
  item_seller_id it <> uid -> addresses s !! aid = Some uid ->
  orders s !! nid = None -> iid <> EmptyString -> aid <> EmptyString ->
  exists s' o,
    create_order pf uid nid now
      (Some [("item_id", JStr iid); ("shipping_address_id", JStr aid);
             ("shipping_cost", JNum d)]) s = (s', Success 201) /\
    orders s' !! nid = Some o /\ shipping_cost o = numeric_10_2 pf d /\
    total_price o =
      numeric_10_2 pf (dec_add (dec_add (price it) d) (protection_fee (price it))).
Proof.
  intros Hi Hst Hsel Ha Hn Hiid Haid.
  assert (Hne : forall x : string, x <> EmptyString -> str_nonempty x = true)
    by (intros [|c x] Hx; [congruence | reflexivity]).
  unfold create_order; simpl.
  rewrite (Hne iid Hiid), (Hne aid Haid); simpl.
  rewrite Hi, Hst; simpl.
  destruct (String.eqb_spec (item_seller_id it) uid) as [He|_]; [congruence|].
  unfold find_address; simpl; rewrite Ha, String.eqb_refl.
  unfold shipping_cost_of; simpl; rewrite Hn.
  eexists _, _; split_and!; [reflexivity | apply lookup_insert_eq | reflexivity | reflexivity].
Qed.

(** X11: [create_order] accepts any shipping_cost written with two
    decimals, also zero or negative: on a backend whose column keeps such
    values, the order stores it as given, and total_price is what the
    column makes of the [Decimal] sum with it. *)
Theorem create_order_any_shipping_cost (pf : platform)
    (uid nid : string) (now : Z) (s : state) (iid aid : string) (it : Item) (c : Z) :
  keeps_cents pf -> Z.abs c < 10 ^ 10 ->
  items s !! iid = Some it -> item_status it = Some "available" ->
  item_seller_id it <> uid -> addresses s !! aid = Some uid ->
  orders s !! nid = None -> iid <> EmptyString -> aid <> EmptyString ->
  exists s' o,
    create_order pf uid nid now
      (Some [("item_id", JStr iid); ("shipping_address_id", JStr aid);
             ("shipping_cost", JNum (Dec c (-2)))]) s = (s', Success 201) /\
    orders s' !! nid = Some o /\ dec_eqb (shipping_cost o) (Dec c (-2)) = true /\
    total_price o =
      numeric_10_2 pf (dec_add (dec_add (price it) (Dec c (-2))) (protection_fee (price it))).
Proof.
  intros Hk Hc Hi Hst Hsel Ha Hn Hiid Haid.
  destruct (create_order_body_ok pf uid nid now s iid aid it (Dec c (-2))
              Hi Hst Hsel Ha Hn Hiid Haid) as (s' & o & H1 & H2 & H3 & H4).
  exists s', o; split_and!; [exact H1 | exact H2 | rewrite H3; apply Hk, Hc | exact H4].
Qed.

Lemma round_2_keeps_cents : keeps_cents pg.
Proof.
  intros c _; cbn [numeric_10_2 pg]; unfold round_2, dec_eqb, dec_align; simpl.
  rewrite Z.mul_1_r; apply Z.eqb_refl.
Qed.

Lemma round_2_zero (z : dec) : coef z = 0 -> coef (round_2 z) = 0.
Proof.
  unfold round_2, dec_align; intros Hz; rewrite Hz.
  destruct (_ <=? _); reflexivity.
Qed.

(** A shipping cost of -100.00 on the 100.00 item [i1]. *)
Lemma create_order_any_shipping_cost_witness :
  keeps_cents pg /\
  exists s' o,
    create_order pg "b1" "o1" 1
      (Some [("item_id", JStr "i1"); ("shipping_address_id", JStr "a1");
             ("shipping_cost", JNum (Dec (-10000) (-2)))]) shop0 = (s', Success 201) /\
    orders s' !! "o1" = Some o /\ dec_eqb (shipping_cost o) (Dec (-10000) (-2)) = true /\
    total_price o =
      numeric_10_2 pg (dec_add (dec_add (Dec 10000 (-2)) (Dec (-10000) (-2)))
                         (protection_fee (Dec 10000 (-2)))).
Proof.
  split; [apply round_2_keeps_cents|].
  apply (create_order_any_shipping_cost pg "b1" "o1" 1 shop0 "i1" "a1"
           (mkItem "s1" (Dec 10000 (-2)) "AED" (Some "available") 0 []));
    first [apply round_2_keeps_cents | vm_compute; reflexivity | discriminate].
Defined.

Lemma substring_0_length (t : string) : String.substring 0 (String.length t) t = t.
Proof. induction t as [|c t IH]; simpl; [reflexivity | now rewrite IH]. Qed.

Lemma strip_bearer_prefix (t : string) : strip_bearer (String.append "Bearer " t) = t.
Proof.
  unfold strip_bearer; cbv [String.append]; simpl.
  destruct (String.prefix EmptyString t) eqn:E.
  - rewrite ?Nat.sub_0_r; apply substring_0_length.
  - destruct t; discriminate.
Qed.

(** X15: [token_required] treats the header "Bearer t" as the bare token t
    (for a non-empty t not itself starting with the prefix). *)
Theorem bearer_prefix_optional jwt_decode user_get (t : string) :
  String.prefix "Bearer " t = false -> t <> EmptyString ->
  authenticate jwt_decode user_get (Some (String.append "Bearer " t))
  = authenticate jwt_decode user_get (Some t).
Proof.
  intros Hp Ht; unfold authenticate.
  rewrite strip_bearer_prefix; unfold strip_bearer; rewrite Hp.
  destruct t; [congruence | reflexivity].
Qed.

(** X16: a token that decodes to a payload without user_id makes
    [token_required] fail with status 500 (uncaught [KeyError]), not 401;
    the route is not run and nothing is written. *)
Theorem payload_without_user_id jwt_decode user_get (h : string) (p : body)
    f (s : state) :
  h <> EmptyString -> jwt_decode (strip_bearer h) = JwtPayload p ->
  body_get p "user_id" = None ->
  token_required jwt_decode user_get (Some h) f s = (s, Crash).
Proof.
  intros Hh Hd Hu; unfold token_required, authenticate.
  destruct h as [|c h]; [congruence|]; simpl negb; cbv iota.
  rewrite Hd, Hu; reflexivity.
Qed.

(** X14: in GET /orders a role other than buyer or seller (missing or
    misspelt) lists the orders of which the caller is buyer or seller, the
    same orders GET /orders/<order_id> returns; an empty status is no
    filter. *)
Theorem user_orders_role_fallback (s : state) (uid k : string) (o : Order)
    (role status : option string) :
  role <> Some "buyer" -> role <> Some "seller" ->
  (status = None \/ status = Some EmptyString) ->
  In (k, o) (user_orders_rows s uid role status) <-> order_of_party s k uid = Some o.
Proof.
  intros Hb Hs Hst; unfold user_orders_rows, order_of_party.
  rewrite filter_In, <- list_elem_of_In, elem_of_map_to_list; simpl.
  destruct (String.eqb (match role with Some r => r | None => "all" end) "buyer") eqn:E1.
  { destruct role as [r|]; simpl in E1; [apply String.eqb_eq in E1; subst; congruence | discriminate]. }
  destruct (String.eqb (match role with Some r => r | None => "all" end) "seller") eqn:E2.
  { destruct role as [r|]; simpl in E2; [apply String.eqb_eq in E2; subst; congruence | discriminate]. }
  assert (Hst' : forall o0 : Order, match status with
          | Some st => if str_nonempty st then String.eqb (order_status o0) st else true
          | None => true end = true) by (destruct Hst as [-> | ->]; reflexivity).
  rewrite Hst', andb_true_r.
  split.
  - intros [Hk Hq]; rewrite Hk, Hq; reflexivity.
  - destruct (orders s !! k) as [o0|]; [|discriminate].
    destruct (_ || _) eqn:Eb; [|discriminate]. intros [=<-]; auto.
Qed.


(** X13: after a successful [complete_order], the payout transaction is
    listed by GET /transactions?type=payout for the buyer as well as for
    the seller of the order. *)
Theorem complete_order_payout_visible (pf : platform)
    (uid oid tid : string) (now : Z) (s s' : state) :
  complete_order pf uid oid tid now s = (s', Success 200) ->
  exists o t, orders s' !! oid = Some o /\ buyer_id o = uid /\
    txn_id t = tid /\ transaction_type t = "payout" /\
    In t (user_transactions_rows s' (buyer_id o) (Some "payout")) /\
    In t (user_transactions_rows s' (seller_id o) (Some "payout")).
Proof.
  destruct s as [i a m l sh].
  unfold complete_order, order_of_buyer; simpl; intros H; split_handler; str_facts.
  eexists _, (mkTransaction tid oid JNull
                (numeric_10_2 pf (dec_add (item_price o) (shipping_cost o)))
                (order_currency o) "payout" "success" (JStr "wallet")).
  split_and!; [apply lookup_insert_eq | simpl; congruence | reflexivity
    | reflexivity | ..];
    unfold user_transactions_rows; apply filter_In; simpl;
    (split; [apply in_or_app; right; left; reflexivity |]);
    rewrite lookup_insert_eq; simpl; rewrite !String.eqb_refl, ?orb_true_r; reflexivity.
Qed.

Lemma complete_order_payout_visible_witness :
  exists o t, orders shop7 !! "o1" = Some o /\ buyer_id o = "b1" /\
    txn_id t = "t3" /\ transaction_type t = "payout" /\
    In t (user_transactions_rows shop7 (buyer_id o) (Some "payout")) /\
    In t (user_transactions_rows shop7 (seller_id o) (Some "payout")).
Proof. apply (complete_order_payout_visible pg "b1" "o1" "t3" 8 shop6 shop7); vm_compute; reflexivity. Defined.

(** X12: an order created with a zero shipping_cost (0, 0.00, ...) has a
    JSON null, not 0, as shipping_cost in [order.to_dict()], on a backend
    whose [Numeric(10, 2)] column holds zero as zero. *)
Theorem create_order_zero_shipping_null (pf : platform)
    (float : Type) (float_of_decimal : dec -> float)
    (uid nid : string) (now : Z) (s : state) (iid aid : string) (it : Item) (d : dec) :
  items s !! iid = Some it -> item_status it = Some "available" ->
  item_seller_id it <> uid -> addresses s !! aid = Some uid ->
  orders s !! nid = None -> iid <> EmptyString -> aid <> EmptyString ->
  coef d = 0 -> (forall z, coef z = 0 -> coef (numeric_10_2 pf z) = 0) ->
  exists s' o,
    create_order pf uid nid now
      (Some [("item_id", JStr iid); ("shipping_address_id", JStr aid);
             ("shipping_cost", JNum d)]) s = (s', Success 201) /\
    orders s' !! nid = Some o /\ shipping_cost o = numeric_10_2 pf d /\
    In ("shipping_cost", None) (order_money_json float float_of_decimal o).
Proof.
  intros Hi Hst Hsel Ha Hn Hiid Haid Hd Hz.
  destruct (create_order_body_ok pf uid nid now s iid aid it d Hi Hst Hsel Ha Hn Hiid Haid)
    as (s' & o & Hc & Ho & Hsc & _).
  exists s', o; split_and!; [exact Hc | exact Ho | exact Hsc |].
  unfold order_money_json, money_json; rewrite Hsc, (Hz d Hd); simpl; auto.
Qed.

Lemma create_order_zero_shipping_null_witness :
  exists s' o,
    create_order pg "b1" "o1" 1
      (Some [("item_id", JStr "i1"); ("shipping_address_id", JStr "a1");
             ("shipping_cost", JNum (Dec 0 (-2)))]) shop0 = (s', Success 201) /\
    orders s' !! "o1" = Some o /\ shipping_cost o = numeric_10_2 pg (Dec 0 (-2)) /\
    In ("shipping_cost", None) (order_money_json Z coef o).
Proof.
  apply (create_order_zero_shipping_null pg Z coef "b1" "o1" 1 shop0 "i1" "a1"
           (mkItem "s1" (Dec 10000 (-2)) "AED" (Some "available") 0 []));
    first [vm_compute; reflexivity | discriminate | apply round_2_zero].
Defined.

Lemma bearer_prefix_optional_witness :
  authenticate (fun t => if String.eqb t "abc" then JwtPayload [("user_id", JStr "b1")]
                         else JwtInvalid)
    (fun v => match v with JStr u => Some u | _ => None end)
    (Some (String.append "Bearer " "abc"))
  = authenticate (fun t => if String.eqb t "abc" then JwtPayload [("user_id", JStr "b1")]
                           else JwtInvalid)
      (fun v => match v with JStr u => Some u | _ => None end) (Some "abc").
Proof. apply bearer_prefix_optional; [reflexivity | discriminate]. Defined.

Lemma payload_without_user_id_witness :
  token_required (fun _ => JwtPayload [("sub", JStr "b1")]) (fun _ => None) (Some "abc")
    (fun u => delete_item u "i1" 1) shop0 = (shop0, Crash).
Proof. apply (payload_without_user_id _ _ "abc" [("sub", JStr "b1")]); [discriminate | reflexivity | reflexivity]. Defined.

Lemma user_orders_role_fallback_witness :
  In ("o1", mkOrder "b1" "s1" "i1" "a1" (Dec 10000 (-2)) (Dec 1500 (-2)) (Dec 750 (-2))
              (Dec 12250 (-2)) "AED" "pending" "pending" 1 1 None None None)
     (user_orders_rows shop1 "b1" (Some "buyers") None)
  <-> order_of_party shop1 "o1" "b1"
      = Some (mkOrder "b1" "s1" "i1" "a1" (Dec 10000 (-2)) (Dec 1500 (-2)) (Dec 750 (-2))
                (Dec 12250 (-2)) "AED" "pending" "pending" 1 1 None None None).
Proof. apply user_orders_role_fallback; [discriminate | discriminate | left; reflexivity]. Defined.
